(** * VLib: the personal library catalog of [VLib.py]

    A shallow embedding of the classes [Book] and [Library] of [VLib.py],
    and the properties of the catalog operations proved over it.

    Modelling choices, all taken from the Python source:
    - a Python [str] is its sequence of code points ([pystr]);
    - the values stored in the fields of a [Book] are dynamically typed:
      the integers and strings that [input()], [len(...) + 1] and a JSON
      file can put there ([pyval]);
    - a [dict] with string keys is a finite map ([pydict]);
    - [self.books] is a list of records.  Every [Book] object is created
      by [add_book] or [load_books] and stored in exactly one slot of the
      list, so a slot of the list stands for the object it holds;
    - the methods of [Library] change [self.books], the backing file and
      the console: they are computations in a state monad over a [World],
      whose [trace] records every file write and every printed message;
    - [str.lower], [json.dump] and [json.load] belong to the Python
      library, not to [VLib.py]: they are parameters of the development.
      A write can fail: [json.dump] into a file opened as strict UTF-8
      raises on a text that cannot be encoded, after the file was emptied
      and the text before it was written;
    - [display_books] and [main] write on the console and read the
      keyboard: they are computations over a [Session], which holds the
      world of the library, the lines still to be read and the console;
      [int] on a typed text is a parameter as well, and the [while True]
      loop of [main] runs on fuel, one turn more than there are lines. *)

From Stdlib Require Import ZArith NArith List String Ascii Lia DecimalString.
From stdpp Require Import base option list gmap strings.

Local Open Scope Z_scope.

(** ** Python strings *)

Module PyStr.

(** A [str] is a sequence of Unicode code points. *)
Definition pystr : Type := list N.

(** The code points of an ASCII literal of the source. *)
Definition of_ascii (s : string) : pystr :=
  map N_of_ascii (list_ascii_of_string s).

(** [s.startswith(p)], the auxiliary of the substring test. *)
Fixpoint startswith (p s : pystr) : bool :=
  match p, s with
  | [], _ => true
  | _ :: _, [] => false
  | a :: p', b :: s' => N.eqb a b && startswith p' s'
  end.

(** [needle in hay] for two strings: [needle] occurs in [hay] as a
    contiguous run of code points. *)
Fixpoint contains (needle hay : pystr) : bool :=
  startswith needle hay ||
  match hay with
  | [] => false
  | _ :: hay' => contains needle hay'
  end.

(** [str(n)] for an integer [n]: its decimal digits, with a leading
    minus sign when negative. *)
Definition str_of_int (n : Z) : pystr :=
  of_ascii (NilZero.string_of_int (Z.to_int n)).

(** A case mapping that agrees with [str.lower] on the ASCII letters and
    on the Russian alphabet (U+0400..U+042F), and leaves every other code
    point alone.  It is the instance at which the examples are run. *)
Definition lower_code_point (c : N) : N :=
  if (65 <=? c)%N && (c <=? 90)%N then (c + 32)%N
  else if (1040 <=? c)%N && (c <=? 1071)%N then (c + 32)%N
  else if (1024 <=? c)%N && (c <=? 1039)%N then (c + 80)%N
  else c.

Definition lower_basic (s : pystr) : pystr := map lower_code_point s.

End PyStr.

Import PyStr.

(** ** Python values *)

(** The values held by the fields of a book: [int] and [str].  These are
    what [add_book] receives from the menu loop ([input()] strings), what
    it computes ([len(self.books) + 1]), and the scalars of a JSON file. *)
Inductive pyval : Type :=
| PyInt (n : Z)
| PyStr (s : pystr).

#[global] Instance pyval_eq_dec : EqDecision pyval.
Proof. solve_decision. Defined.

(** [a == b]: an [int] and a [str] are never equal. *)
Definition py_eq (a b : pyval) : bool := bool_decide (a = b).

(** [str(v)]. *)
Definition py_str (v : pyval) : pystr :=
  match v with
  | PyInt n => str_of_int n
  | PyStr s => s
  end.

(** A [dict] with string keys, as [to_dict] builds and [json.load] returns. *)
Abbreviation pydict := (gmap string pyval).

(** ** Exceptions and results *)

Inductive exn : Type :=
| KeyError (key : string)
| AttributeError
| FileNotFoundError
| JSONDecodeError
| UnicodeEncodeError.

#[global] Instance exn_eq_dec : EqDecision exn.
Proof. solve_decision. Defined.

Inductive result (A : Type) : Type :=
| Ok (a : A)
| Raise (e : exn).
Arguments Ok {A} a.
Arguments Raise {A} e.

#[global] Instance result_eq_dec `{EqDecision A} : EqDecision (result A).
Proof. solve_decision. Defined.

#[global] Instance result_ret : MRet result := fun _ a => Ok a.

#[global] Instance result_bind : MBind result := fun _ _ k r =>
  match r with
  | Ok a => k a
  | Raise e => Raise e
  end.

(** A comprehension [[f(x) for x in xs]] whose body may raise: the first
    exception ends it. *)
Fixpoint rmap {A B} (f : A -> result B) (xs : list A) : result (list B) :=
  match xs with
  | [] => Ok []
  | x :: xs' =>
      y ← f x; ys ← rmap f xs'; mret (y :: ys)
  end.

(** A comprehension [[x for x in xs if p(x)]] whose condition may raise. *)
Fixpoint rfilter {A} (p : A -> result bool) (xs : list A) : result (list A) :=
  match xs with
  | [] => Ok []
  | x :: xs' =>
      b ← p x; ys ← rfilter p xs'; mret (if b : bool then x :: ys else ys)
  end.

(** [d[key]]. *)
Definition getitem (d : pydict) (key : string) : result pyval :=
  match d !! key with
  | Some v => Ok v
  | None => Raise (KeyError key)
  end.

(** ** class Book *)

Record Book : Type := mkBook {
  id : pyval;
  title : pyval;
  author : pyval;
  year : pyval;
  status : pyval
}.

#[global] Instance Book_eq_dec : EqDecision Book.
Proof. solve_decision. Defined.

(** "в наличии", the default status. *)
Definition in_stock : pystr :=
  [1074; 32; 1085; 1072; 1083; 1080; 1095; 1080; 1080]%N.

(** "выдана". *)
Definition lent_out : pystr :=
  [1074; 1099; 1076; 1072; 1085; 1072]%N.

(** [Book.__init__], with [status="в наличии"] as the default argument. *)
Definition Book_init (book_id title author year : pyval)
    (status : option pyval) : Book :=
  {| id := book_id; title := title; author := author; year := year;
     status := default (PyStr in_stock) status |}.

(** [Book.to_dict]. *)
Definition to_dict (self : Book) : pydict :=
  <["id" := id self]> (<["title" := title self]> (<["author" := author self]>
    (<["year" := year self]> (<["status" := status self]> ∅)))).

(** [self.status = new_status]. *)
Definition set_status (self : Book) (new_status : pyval) : Book :=
  {| id := id self; title := title self; author := author self;
     year := year self; status := new_status |}.

(** ** The world of a Library *)

(** What the methods of [Library] show on the console:
    the message of [print(f"Книга с id {book_id} не найдена.")] and the
    message of [print("Некорректный статус. ...")]. *)
Inductive message : Type :=
| NotFound (book_id : pyval)
| InvalidStatus.

#[global] Instance message_eq_dec : EqDecision message.
Proof. solve_decision. Defined.

(** What [json.dump] does to a file opened for writing: it writes the
    whole document [t], or it raises [e] after it wrote the text [t],
    which is then what the file holds. *)
Inductive dump (text : Type) : Type :=
| Whole (t : text)
| Cut (t : text) (e : exn).
Arguments Whole {text} t.
Arguments Cut {text} t e.

#[global] Instance dump_eq_dec `{EqDecision text} : EqDecision (dump text).
Proof. solve_decision. Defined.

(** The text that reached the file, and how the write ended. *)
Definition dumped {text} (d : dump text) : text :=
  match d with
  | Whole t | Cut t _ => t
  end.

Definition dump_outcome {text} (d : dump text) : result unit :=
  match d with
  | Whole _ => Ok tt
  | Cut _ e => Raise e
  end.

(** The effects of a method that can be seen from outside: a write to the
    backing file, which replaces its content, or a line on the console. *)
Inductive event (text : Type) : Type :=
| Written (t : text)
| Printed (m : message).
Arguments Written {text} t.
Arguments Printed {text} m.

#[global] Instance event_eq_dec `{EqDecision text} : EqDecision (event text).
Proof. solve_decision. Defined.

(** [books] is [self.books]; [file] is the content of the file named
    [self.filename], [None] when [os.path.exists] is false; [trace] lists
    the events so far, the latest last. *)
Record World (text : Type) : Type := mkWorld {
  books : list Book;
  file : option text;
  trace : list (event text)
}.
Arguments mkWorld {text} books file trace.
Arguments books {text} w.
Arguments file {text} w.
Arguments trace {text} w.

#[global] Instance World_eq_dec `{EqDecision text} : EqDecision (World text).
Proof. solve_decision. Defined.

(** A method: it may change the world, and it returns or raises. *)
Definition M (text A : Type) : Type := World text -> result A * World text.

#[global] Instance M_ret {text} : MRet (M text) := fun _ a w => (Ok a, w).

#[global] Instance M_bind {text} : MBind (M text) := fun _ _ k m w =>
  match m w with
  | (Ok a, w') => k a w'
  | (Raise e, w') => (Raise e, w')
  end.

Section Primitives.
Context {text : Type}.

Definition get_books : M text (list Book) := fun w => (Ok (books w), w).

Definition set_books (bs : list Book) : M text unit := fun w =>
  (Ok tt, {| books := bs; file := file w; trace := trace w |}).

(** [os.path.exists(self.filename)]. *)
Definition path_exists : M text bool := fun w =>
  (Ok (bool_decide (is_Some (file w))), w).

(** [print(...)]. *)
Definition print (m : message) : M text unit := fun w =>
  (Ok tt, {| books := books w; file := file w;
             trace := trace w ++ [Printed m] |}).

(** A pure computation that may raise, run inside a method. *)
Definition lift {A} (r : result A) : M text A := fun w => (r, w).

End Primitives.

(** ** class Library *)

Section Library.
Context {text : Type}.

(** [json.dump(data, file, ensure_ascii=False, indent=4)] into a file
    opened with [encoding='utf-8'], as the text it writes and the
    exception that may cut it short, and [json.load(file)] as the data it
    reads from a text, for the documents of this program: arrays of
    objects. *)
Variable json_dump : list pydict -> dump text.
Variable json_load : text -> result (list pydict).

(** [str.lower]. *)
Variable lower : pystr -> pystr.

Local Abbreviation M := (M text).

(** [with open(self.filename, 'r', encoding='utf-8') as file:
     json.load(file)]. *)
Definition read_json : M (list pydict) := fun w =>
  match file w with
  | Some t => (json_load t, w)
  | None => (Raise FileNotFoundError, w)
  end.

(** [with open(self.filename, 'w', encoding='utf-8') as file:
     json.dump(data, file, ...)]: opening empties the file, and what
    [json.dump] wrote before it ended, normally or not, is its new
    content. *)
Definition write_json (data : list pydict) : M unit := fun w =>
  (dump_outcome (json_dump data),
   {| books := books w; file := Some (dumped (json_dump data));
      trace := trace w ++ [Written (dumped (json_dump data))] |}).

(** The body of the comprehension of [load_books]: the keyword
    arguments are evaluated from left to right. *)
Definition book_of_dict (book : pydict) : result Book :=
  book_id ← getitem book "id";
  title ← getitem book "title";
  author ← getitem book "author";
  year ← getitem book "year";
  status ← getitem book "status";
  mret (Book_init book_id title author year (Some status)).

Definition load_books : M unit :=
  present ← path_exists;
  if present : bool then
    data ← read_json;
    bs ← lift (rmap book_of_dict data);
    set_books bs
  else mret tt.

(** [Library.__init__]. *)
Definition Library_init : M unit :=
  set_books [];;
  load_books.

Definition save_books : M unit :=
  bs ← get_books;
  write_json (to_dict <$> bs).

Definition add_book (title author year : pyval) : M unit :=
  bs ← get_books;
  let book_id := PyInt (Z.of_nat (length bs) + 1) in
  let new_book := Book_init book_id title author year None in
  bs ← get_books;
  set_books (bs ++ [new_book]);;
  save_books.

(** The loop of [remove_book], at the slot [i] of [self.books], with
    [rest] the books still to visit.  [self.books.remove(book)] removes
    the first slot holding the object [book], which is the slot [i]
    where the loop found it. *)
Fixpoint remove_book_from (book_id : pyval) (i : nat) (rest : list Book)
    : M unit :=
  match rest with
  | [] => print (NotFound book_id)
  | book :: rest' =>
      if py_eq (id book) book_id then
        bs ← get_books;
        set_books (delete i bs);;
        save_books
      else remove_book_from book_id (S i) rest'
  end.

Definition remove_book (book_id : pyval) : M unit :=
  bs ← get_books;
  remove_book_from book_id 0 bs.

(** [query.lower() in book.title.lower() or
     query.lower() in book.author.lower() or
     query.lower() in str(book.year)]: [lower] is a method of [str]
    only, and [or] stops at the first true operand. *)
Definition str_lower (v : pyval) : result pystr :=
  match v with
  | PyStr s => Ok (lower s)
  | PyInt _ => Raise AttributeError
  end.

Definition matches (query : pyval) (book : Book) : result bool :=
  q ← str_lower query;
  t ← str_lower (title book);
  if contains q t then mret true else
  q ← str_lower query;
  a ← str_lower (author book);
  if contains q a then mret true else
  q ← str_lower query;
  mret (contains q (py_str (year book))).

Definition search_books (query : pyval) : M (list Book) :=
  bs ← get_books;
  lift (rfilter (matches query) bs).

(** [new_status in ["в наличии", "выдана"]]. *)
Definition valid_status (new_status : pyval) : bool :=
  py_eq (PyStr in_stock) new_status || py_eq (PyStr lent_out) new_status.

(** The loop of [change_status], at the slot [i] of [self.books]:
    [book.status = new_status] changes the object in that slot. *)
Fixpoint change_status_from (book_id new_status : pyval) (i : nat)
    (rest : list Book) : M unit :=
  match rest with
  | [] => print (NotFound book_id)
  | book :: rest' =>
      if py_eq (id book) book_id then
        if valid_status new_status then
          bs ← get_books;
          set_books (<[i := set_status book new_status]> bs);;
          save_books
        else print InvalidStatus
      else change_status_from book_id new_status (S i) rest'
  end.

Definition change_status (book_id new_status : pyval) : M unit :=
  bs ← get_books;
  change_status_from book_id new_status 0 bs.

End Library.

(** ** Running methods *)

Section Running.
Context {text : Type}.

(** The world a method leaves, and what it returned or raised. *)
Definition exec {A} (m : M text A) (w : World text) : World text := (m w).2.
Definition outcome {A} (m : M text A) (w : World text) : result A := (m w).1.

Variable json_dump : list pydict -> dump text.

(** The three operations that change a catalog. *)
Inductive operation : Type :=
| Add (title author year : pyval)
| Remove (book_id : pyval)
| SetStatus (book_id new_status : pyval).

Definition perform (op : operation) : M text unit :=
  match op with
  | Add title author year => add_book json_dump title author year
  | Remove book_id => remove_book json_dump book_id
  | SetStatus book_id new_status =>
      change_status json_dump book_id new_status
  end.

Fixpoint perform_all (ops : list operation) : M text unit :=
  match ops with
  | [] => mret tt
  | op :: ops' => perform op;; perform_all ops'
  end.

End Running.

(** A library over no backing file, before anything happened. *)
Definition empty_catalog {text} : World text := mkWorld [] None [].

(** The ids of a catalog, in sequence order. *)
Definition ids (bs : list Book) : list pyval := id <$> bs.

(** ** The search of the specification *)

Section SearchSpec.
Variable lower : pystr -> pystr.

(** [query] is a case-insensitive substring of [s]: it occurs in [s]
    once the case of both is folded. *)
Definition ci_substring (query s : pystr) : bool :=
  contains (lower query) (lower s).

(** The match the specification describes: case-insensitive against
    the title, the author, or the string form of the year. *)
Definition spec_matches (query : pystr) (book : Book) : bool :=
  ci_substring query (py_str (title book)) ||
  ci_substring query (py_str (author book)) ||
  ci_substring query (py_str (year book)).

(** The match [search_books] computes: the year's string form is
    compared as it is. *)
Definition code_matches (query : pystr) (book : Book) : bool :=
  ci_substring query (py_str (title book)) ||
  ci_substring query (py_str (author book)) ||
  contains (lower query) (py_str (year book)).

End SearchSpec.

(** Titles and authors are strings, as the data model has them. *)
Definition text_fields (b : Book) : Prop :=
  (∃ s, title b = PyStr s) ∧ (∃ s, author b = PyStr s).

(** ** An instance of the JSON parameters: the text of a catalog *)

(** A writer and a reader of JSON text for the documents of this
    program, in the format of [json.dump(..., ensure_ascii=False,
    indent=4)]: the texts are sequences of code points, written to a file
    that UTF-8 encodes strictly.  The members of an object come in the
    order of the finite map, and the reader knows the escapes that the
    writer uses.  It is the instance at which the examples are run. *)
Module JsonText.

(** A code point that UTF-8 encodes: in the range of Unicode and not a
    surrogate (U+D800..U+DFFF). *)
Definition encodable_char (c : N) : bool :=
  (c <? 55296)%N || ((57343 <? c)%N && (c <=? 1114111)%N).

Definition encodable (s : pystr) : bool := forallb encodable_char s.

(** The digit of [n < 16] in lower-case hexadecimal. *)
Definition hex_digit (n : N) : N :=
  if (n <? 10)%N then (48 + n)%N else (87 + n)%N.

(** A character inside a JSON string: the quote, the backslash and the
    control characters are escaped, everything else is written as it
    is. *)
Definition escape_char (c : N) : pystr :=
  if (c =? 34)%N then [92; 34]%N
  else if (c =? 92)%N then [92; 92]%N
  else if (c =? 8)%N then [92; 98]%N
  else if (c =? 9)%N then [92; 116]%N
  else if (c =? 10)%N then [92; 110]%N
  else if (c =? 12)%N then [92; 102]%N
  else if (c =? 13)%N then [92; 114]%N
  else if (c <? 32)%N
    then [92; 117; 48; 48; hex_digit (c / 16); hex_digit (c mod 16)]%N
  else [c].

Definition quote (s : pystr) : pystr :=
  34%N :: (s ≫= escape_char) ++ [34%N].

(** A line feed and the indentation that follows it. *)
Definition nl (indent : nat) : pystr := 10%N :: replicate indent 32%N.

Definition value_chunk (v : pyval) : pystr :=
  match v with
  | PyInt n => str_of_int n
  | PyStr s => quote s
  end.

(** The chunks that the writer hands to the file, one after the other:
    a key, the separator and a value for a member; the members of an
    object between braces; the objects of an array between brackets. *)
Definition member_chunks (m : string * pyval) : list pystr :=
  [quote (of_ascii m.1); of_ascii ": "; value_chunk m.2].

Definition object_chunks (d : pydict) : list pystr :=
  match map_to_list d with
  | [] => [of_ascii "{}"]
  | m :: ms =>
      [of_ascii "{"; nl 8] ++ member_chunks m ++
      (ms ≫= λ m', (44%N :: nl 8) :: member_chunks m') ++
      [nl 4; of_ascii "}"]
  end.

Definition array_chunks (data : list pydict) : list pystr :=
  match data with
  | [] => [of_ascii "[]"]
  | d :: ds =>
      [91%N :: nl 4] ++ object_chunks d ++
      (ds ≫= λ d', (44%N :: nl 4) :: object_chunks d') ++
      [nl 0; of_ascii "]"]
  end.

(** The file takes the chunks in turn; a chunk that cannot be encoded
    raises [UnicodeEncodeError], and the chunks before it stay. *)
Fixpoint write_chunks (written : pystr) (chunks : list pystr) : dump pystr :=
  match chunks with
  | [] => Whole written
  | chunk :: chunks' =>
      if encodable chunk then write_chunks (written ++ chunk) chunks'
      else Cut written UnicodeEncodeError
  end.

Definition text_dump (data : list pydict) : dump pystr :=
  write_chunks [] (array_chunks data).

(** The reader. *)
Definition is_space (c : N) : bool :=
  (c =? 32)%N || (c =? 10)%N || (c =? 13)%N || (c =? 9)%N.

Fixpoint skip_spaces (s : pystr) : pystr :=
  match s with
  | [] => []
  | c :: s' => if is_space c then skip_spaces s' else s
  end.

Definition hex_value (c : N) : option N :=
  if (48 <=? c)%N && (c <=? 57)%N then Some (c - 48)%N
  else if (97 <=? c)%N && (c <=? 102)%N then Some (c - 87)%N
  else if (65 <=? c)%N && (c <=? 70)%N then Some (c - 55)%N
  else None.

Definition hex4 (a b c d : N) : option N :=
  a' ← hex_value a; b' ← hex_value b; c' ← hex_value c; d' ← hex_value d;
  Some (((a' * 16 + b') * 16 + c') * 16 + d')%N.

(** The character that stands after a backslash. *)
Definition unescape (e : N) : option N :=
  if (e =? 34)%N then Some 34%N
  else if (e =? 92)%N then Some 92%N
  else if (e =? 47)%N then Some 47%N
  else if (e =? 98)%N then Some 8%N
  else if (e =? 116)%N then Some 9%N
  else if (e =? 110)%N then Some 10%N
  else if (e =? 102)%N then Some 12%N
  else if (e =? 114)%N then Some 13%N
  else None.

(** A string after its opening quote: its characters, up to the closing
    quote, and the text that follows. *)
Fixpoint string_body (s : pystr) : option (pystr * pystr) :=
  match s with
  | [] => None
  | c :: rest =>
      if (c =? 34)%N then Some ([], rest)
      else if (c =? 92)%N then
        match rest with
        | [] => None
        | e :: rest' =>
            if (e =? 117)%N then
              match rest' with
              | a :: b :: c' :: d :: rest'' =>
                  h ← hex4 a b c' d;
                  r ← string_body rest'';
                  Some (h :: r.1, r.2)
              | _ => None
              end
            else
              u ← unescape e;
              r ← string_body rest';
              Some (u :: r.1, r.2)
        end
      else if (c <? 32)%N then None
      else r ← string_body rest; Some (c :: r.1, r.2)
  end.

Definition read_string (s : pystr) : option (pystr * pystr) :=
  match s with
  | c :: rest => if (c =? 34)%N then string_body rest else None
  | [] => None
  end.

(** A number: the digits and minus signs at the front of the text, read
    as a decimal integer. *)
Definition is_digit_or_minus (c : N) : bool :=
  (c =? 45)%N || ((48 <=? c)%N && (c <=? 57)%N).

Fixpoint number_span (s : pystr) : pystr * pystr :=
  match s with
  | [] => ([], [])
  | c :: s' =>
      if is_digit_or_minus c
      then let r := number_span s' in (c :: r.1, r.2)
      else ([], s)
  end.

Definition to_string (s : pystr) : string :=
  string_of_list_ascii (ascii_of_N <$> s).

Definition read_int (s : pystr) : option (Z * pystr) :=
  let r := number_span s in
  d ← NilZero.int_of_string (to_string r.1);
  Some (Z.of_int d, r.2).

Definition read_value (s : pystr) : option (pyval * pystr) :=
  match s with
  | c :: _ =>
      if (c =? 34)%N then r ← read_string s; Some (PyStr r.1, r.2)
      else r ← read_int s; Some (PyInt r.1, r.2)
  | [] => None
  end.

(** A key is a string of characters below 256. *)
Definition read_key (s : pystr) : option (string * pystr) :=
  r ← read_string s;
  if forallb (λ c, c <? 256)%N r.1 then Some (to_string r.1, r.2) else None.

Definition expect (c : N) (s : pystr) : option pystr :=
  match skip_spaces s with
  | c' :: rest => if (c' =? c)%N then Some rest else None
  | [] => None
  end.

Definition read_member (s : pystr) : option (string * pyval * pystr) :=
  k ← read_key (skip_spaces s);
  s' ← expect 58 k.2;
  v ← read_value (skip_spaces s');
  Some (k.1, v.1, v.2).

(** The members of an object after the opening brace, the first one
    excepted: a later member with the same key replaces an earlier one. *)
Fixpoint read_members (fuel : nat) (d : pydict) (s : pystr)
    : option (pydict * pystr) :=
  match fuel with
  | O => None
  | S fuel' =>
      m ← read_member s;
      let d' := <[m.1.1 := m.1.2]> d in
      match skip_spaces m.2 with
      | c :: rest =>
          if (c =? 44)%N then read_members fuel' d' rest
          else if (c =? 125)%N then Some (d', rest)
          else None
      | [] => None
      end
  end.

Definition read_object (fuel : nat) (s : pystr) : option (pydict * pystr) :=
  s' ← expect 123 s;
  match expect 125 s' with
  | Some rest => Some (∅, rest)
  | None => read_members fuel ∅ s'
  end.

Fixpoint read_objects (fuel : nat) (s : pystr)
    : option (list pydict * pystr) :=
  match fuel with
  | O => None
  | S fuel' =>
      o ← read_object fuel' s;
      match skip_spaces o.2 with
      | c :: rest =>
          if (c =? 44)%N then
            r ← read_objects fuel' rest; Some (o.1 :: r.1, r.2)
          else if (c =? 93)%N then Some ([o.1], rest)
          else None
      | [] => None
      end
  end.

Definition read_array (fuel : nat) (s : pystr)
    : option (list pydict * pystr) :=
  s' ← expect 91 s;
  match expect 93 s' with
  | Some rest => Some ([], rest)
  | None => read_objects fuel s'
  end.

(** [json.load]: an array, and nothing but spaces after it.  The length
    of the text is fuel enough, since every turn reads a character. *)
Definition text_load (s : pystr) : result (list pydict) :=
  match read_array (length s) s with
  | Some (data, rest) =>
      match skip_spaces rest with
      | [] => Ok data
      | _ :: _ => Raise JSONDecodeError
      end
  | None => Raise JSONDecodeError
  end.

End JsonText.

Import JsonText.

(** ** Sample catalogs *)

(** "Dune", by Herbert, with the year as the menu loop passes it: the
    text typed by the user, here "1965 AD". *)
Definition dune : Book :=
  mkBook (PyInt 1) (PyStr (of_ascii "Dune")) (PyStr (of_ascii "Herbert"))
    (PyStr (of_ascii "1965 AD")) (PyStr in_stock).

(** "Война и мир", by "Толстой", lent out. *)
Definition war_and_peace : Book :=
  mkBook (PyInt 2)
    (PyStr [1042; 1086; 1081; 1085; 1072; 32; 1080; 32; 1084; 1080; 1088]%N)
    (PyStr [1058; 1086; 1083; 1089; 1090; 1086; 1081]%N)
    (PyInt 1869) (PyStr lent_out).

(** A second record with the id 2. *)
Definition emma : Book :=
  mkBook (PyInt 2) (PyStr (of_ascii "Emma")) (PyStr (of_ascii "Austen"))
    (PyInt 1815) (PyStr in_stock).

Definition shelf : World pystr :=
  mkWorld [dune; war_and_peace; emma] None [].

(** The text of a document, as [text_dump] writes it whole. *)
Definition text_of (data : list pydict) : pystr := dumped (text_dump data).

(** The backing file of [shelf], before a library is built over it. *)
Definition shelf_on_disk : World pystr :=
  mkWorld [] (Some (text_of (to_dict <$> books shelf))) [].

(** A status that is not one of the two. *)
Definition lost : pyval := PyStr (of_ascii "lost").

(** ** Vocabulary of the statements *)

(** The world in which a method did nothing but print [m]: same catalog,
    same file, no write. *)
Definition only_printed {text} (m : message) (w : World text) : World text :=
  mkWorld (books w) (file w) (trace w ++ [Printed m]).

(** The world in which a method left the catalog [bs] and wrote it to the
    backing file: the file holds what [json.dump] wrote, the whole
    document or the text before the exception. *)
Definition persisted {text} (json_dump : list pydict -> dump text)
    (bs : list Book) (w : World text) : World text :=
  mkWorld bs (Some (dumped (json_dump (to_dict <$> bs))))
    (trace w ++ [Written (dumped (json_dump (to_dict <$> bs)))]).

(** How the write of the catalog [bs] ends: normally, or with the
    exception of [json.dump]. *)
Definition persisting {text} (json_dump : list pydict -> dump text)
    (bs : list Book) : result unit :=
  dump_outcome (json_dump (to_dict <$> bs)).

(** A persisted element that has the five fields of a book. *)
Definition has_book_fields (d : pydict) : Prop :=
  is_Some (d !! "id") ∧ is_Some (d !! "title") ∧ is_Some (d !! "author") ∧
  is_Some (d !! "year") ∧ is_Some (d !! "status").

(** The record [b] was rebuilt from the fields of the element [d]. *)
Definition rebuilt_from (d : pydict) (b : Book) : Prop :=
  d !! "id" = Some (id b) ∧ d !! "title" = Some (title b) ∧
  d !! "author" = Some (author b) ∧ d !! "year" = Some (year b) ∧
  d !! "status" = Some (status b).

(** [b'] is [b] with another status and nothing else changed. *)
Definition same_but_status (b b' : Book) : Prop :=
  id b' = id b ∧ title b' = title b ∧ author b' = author b ∧
  year b' = year b.

(** The ids of [bs] are 1, 2, ..., in this order. *)
Definition counted (bs : list Book) : Prop :=
  ids bs = (λ n, PyInt (Z.of_nat n)) <$> seq 1 (length bs).

(** An operation other than a removal. *)
Definition keeps_books (op : operation) : Prop :=
  match op with
  | Remove _ => False
  | _ => True
  end.

(** ** The console, [display_books] and [main] *)

(** The fixed texts that [display_books] and [main] print, and the
    prompts of [input]: "Библиотека пуста."; the seven lines of the menu,
    from "\nКоманды:" to "6. Выход"; "Выберите команду: "; "Введите
    название книги: ", "Введите автора книги: ", "Введите год издания
    книги: " and "Книга добавлена."; "Введите id книги для удаления: ";
    "Введите название или автора книги для поиска: " and "Книги не
    найдены."; "Введите id книги для изменения статуса: " and "Введите
    новый статус (в наличии/выдана): "; "Некорректный выбор. Пожалуйста,
    попробуйте снова.". *)
Inductive phrase : Type :=
| LibraryIsEmpty
| MenuTitle | MenuAdd | MenuRemove | MenuSearch | MenuList | MenuStatus
| MenuExit
| AskChoice
| AskTitle | AskAuthor | AskYear | BookAdded
| AskRemoveId
| AskQuery | NoBooksFound
| AskStatusId | AskNewStatus
| BadChoice.

(** What appears on the console: a fixed text, the line of a book, or a
    message of [remove_book] and [change_status]. *)
Inductive output : Type :=
| Says (p : phrase)
| Line (s : pystr)
| Reports (m : message).

(** How a run of the program fails: an exception of the library, the
    [EOFError] of [input] at the end of the input, the [ValueError] of
    [int] on a text that is not a number. *)
Inductive failure : Type :=
| Raised (e : exn)
| EOFError
| ValueError.

Inductive ending (A : Type) : Type :=
| Finished (a : A)
| Crashed (f : failure).
Arguments Finished {A} a.
Arguments Crashed {A} f.

(** The program at work: the library and its file, the lines still to
    be read from the keyboard, and the console so far. *)
Record Session (text : Type) : Type := mkSession {
  world : World text;
  stdin : list pystr;
  stdout : list output
}.
Arguments mkSession {text} world stdin stdout.
Arguments world {text} s.
Arguments stdin {text} s.
Arguments stdout {text} s.

Definition P (text A : Type) : Type :=
  Session text -> ending A * Session text.

#[global] Instance P_ret {text} : MRet (P text) :=
  fun _ a s => (Finished a, s).

#[global] Instance P_bind {text} : MBind (P text) := fun _ _ k m s =>
  match m s with
  | (Finished a, s') => k a s'
  | (Crashed f, s') => (Crashed f, s')
  end.

(** The line of a book in [display_books]:
    [f"id:" f" {book.id}, title: {book.title}, author: {book.author},
    year: {book.year}, status: {book.status}"]. *)
Definition display_line (book : Book) : pystr :=
  of_ascii "id:" ++
  (of_ascii " " ++ py_str (id book) ++
   of_ascii ", title: " ++ py_str (title book) ++
   of_ascii ", author: " ++ py_str (author book) ++
   of_ascii ", year: " ++ py_str (year book) ++
   of_ascii ", status: " ++ py_str (status book)).

(** The line of a book found by the search of [main]:
    [f"id: {book.id}, title: {book.title}, author: {book.author},
    year: {book.year}, status: {book.status}"]. *)
Definition found_line (book : Book) : pystr :=
  of_ascii "id: " ++ py_str (id book) ++
  of_ascii ", title: " ++ py_str (title book) ++
  of_ascii ", author: " ++ py_str (author book) ++
  of_ascii ", year: " ++ py_str (year book) ++
  of_ascii ", status: " ++ py_str (status book).

(** The messages among the events of a method, as the console shows
    them. *)
Fixpoint reports {text} (events : list (event text)) : list output :=
  match events with
  | [] => []
  | Written _ :: events' => reports events'
  | Printed m :: events' => Reports m :: reports events'
  end.

Section Console.
Context {text : Type}.

(** [print(...)] of a fixed text, and of computed lines. *)
Definition say (p : phrase) : P text unit := fun s =>
  (Finished tt, mkSession (world s) (stdin s) (stdout s ++ [Says p])).

Definition say_lines (lines : list pystr) : P text unit := fun s =>
  (Finished tt,
   mkSession (world s) (stdin s) (stdout s ++ (Line <$> lines))).

(** [input(prompt)]: the prompt is shown, then a line is read; at the
    end of the input [EOFError] is raised. *)
Definition input (prompt : phrase) : P text pystr := fun s =>
  let shown := stdout s ++ [Says prompt] in
  match stdin s with
  | [] => (Crashed EOFError, mkSession (world s) [] shown)
  | answer :: rest => (Finished answer, mkSession (world s) rest shown)
  end.

(** A method of the library, called by the program: what it printed
    appears on the console, and what it raised ends the program. *)
Definition call {A} (m : M text A) : P text A := fun s =>
  let '(r, w') := m (world s) in
  let said := reports (drop (length (trace (world s))) (trace w')) in
  (match r with
   | Ok a => Finished a
   | Raise e => Crashed (Raised e)
   end,
   mkSession w' (stdin s) (stdout s ++ said)).

(** [Library.display_books]. *)
Definition display_books : P text unit :=
  bs ← call get_books;
  match bs with
  | [] => say LibraryIsEmpty
  | _ :: _ => say_lines (display_line <$> bs)
  end.

(** [json.dump], [json.load], [str.lower] as before, and [int] on a
    [str]: the number it denotes, or [None] where [int] raises
    [ValueError]. *)
Variable json_dump : list pydict -> dump text.
Variable json_load : text -> result (list pydict).
Variable lower : pystr -> pystr.
Variable py_int : pystr -> option Z.

(** [int(input(prompt))]. *)
Definition input_int (prompt : phrase) : P text Z :=
  answer ← input prompt;
  match py_int answer with
  | Some n => mret n
  | None => fun s => (Crashed ValueError, s)
  end.

(** One turn of the [while True] loop of [main]: [true] to go on,
    [false] at [break]. *)
Definition turn : P text bool :=
  say MenuTitle;; say MenuAdd;; say MenuRemove;; say MenuSearch;;
  say MenuList;; say MenuStatus;; say MenuExit;;
  choice ← input AskChoice;
  if bool_decide (choice = of_ascii "1") then
    title ← input AskTitle;
    author ← input AskAuthor;
    year ← input AskYear;
    call (add_book json_dump (PyStr title) (PyStr author) (PyStr year));;
    say BookAdded;;
    mret true
  else if bool_decide (choice = of_ascii "2") then
    book_id ← input_int AskRemoveId;
    call (remove_book json_dump (PyInt book_id));;
    mret true
  else if bool_decide (choice = of_ascii "3") then
    query ← input AskQuery;
    results ← call (search_books lower (PyStr query));
    match results with
    | _ :: _ => say_lines (found_line <$> results)
    | [] => say NoBooksFound
    end;;
    mret true
  else if bool_decide (choice = of_ascii "4") then
    display_books;;
    mret true
  else if bool_decide (choice = of_ascii "5") then
    book_id ← input_int AskStatusId;
    new_status ← input AskNewStatus;
    call (change_status json_dump (PyInt book_id) (PyStr new_status));;
    mret true
  else if bool_decide (choice = of_ascii "6") then
    mret false
  else
    say BadChoice;;
    mret true.

(** The loop, for at most [fuel] turns: [None] when the turns ran out
    before the loop ended. *)
Fixpoint loop (fuel : nat) (s : Session text)
    : option (ending unit * Session text) :=
  match fuel with
  | O => None
  | S fuel' =>
      match turn s with
      | (Finished true, s') => loop fuel' s'
      | (Finished false, s') => Some (Finished tt, s')
      | (Crashed f, s') => Some (Crashed f, s')
      end
  end.

(** [main]: every turn reads a line, so one turn more than there are
    lines to read is enough. *)
Definition main (s : Session text) : option (ending unit * Session text) :=
  match call (Library_init json_load) s with
  | (Finished _, s') => loop (S (length (stdin s'))) s'
  | (Crashed f, s') => Some (Crashed f, s')
  end.

End Console.

(** What the user types in one turn of the menu: the choice and the
    answers to the prompts.  An id is typed as a number. *)
Inductive command : Type :=
| TypeAdd (title author year : pystr)
| TypeRemove (book_id : Z)
| TypeSearch (query : pystr)
| TypeList
| TypeStatus (book_id : Z) (new_status : pystr)
| TypeOther (choice : pystr).


(** The operation of the catalog that a command asks for, if any. *)
Definition asked (c : command) : list operation :=
  match c with
  | TypeAdd title author year =>
      [Add (PyStr title) (PyStr author) (PyStr year)]
  | TypeRemove book_id => [Remove (PyInt book_id)]
  | TypeStatus book_id new_status =>
      [SetStatus (PyInt book_id) (PyStr new_status)]
  | TypeSearch _ | TypeList | TypeOther _ => []
  end.



(** A reading of decimal numbers that agrees with [int] on the texts
    that [str] writes for an [int]: digits, after a minus sign or not.
    It is the instance at which the examples are run. *)
Fixpoint digits_value (acc : Z) (s : pystr) : option Z :=
  match s with
  | [] => Some acc
  | c :: s' =>
      if (48 <=? c)%N && (c <=? 57)%N
      then digits_value (10 * acc + Z.of_N (c - 48)) s'
      else None
  end.

Definition int_basic (s : pystr) : option Z :=
  match s with
  | [] => None
  | 45%N :: ((_ :: _) as digits) => Z.opp <$> digits_value 0 digits
  | _ => digits_value 0 s
  end.

(** A step of the program that reads no more lines than there are, and
    one that reads at least one line when it ends normally. *)
Definition keeps_stdin {text A} (m : P text A) : Prop :=
  ∀ s, (length (stdin (m s).2) ≤ length (stdin s))%nat.

Definition reads_stdin {text A} (m : P text A) : Prop :=
  ∀ s a s',
    m s = (Finished a, s') → (length (stdin s') < length (stdin s))%nat.


(** ** Vocabulary of the further statements *)

(** [needle] occurs in [hay] as a contiguous run of code points. *)
Definition occurs_in (needle hay : pystr) : Prop :=
  ∃ pre post, hay = pre ++ needle ++ post.

(** A decimal digit or the minus sign: the characters of [str(n)]. *)
Definition digit_or_minus (c : N) : Prop :=
  c = 45%N ∨ (48 ≤ c ∧ c ≤ 57)%N.

(** The value is an [int]. *)
Definition is_int (v : pyval) : Prop := ∃ n, v = PyInt n.

(** The five keys that [to_dict] writes and [load_books] reads. *)
Definition book_keys : list string :=
  ["id"; "title"; "author"; "year"; "status"].

(** Two persisted elements with the same five fields. *)
Definition same_book_fields (d d' : pydict) : Prop :=
  ∀ key, key ∈ book_keys → d !! key = d' !! key.

(** The backing file mirrors the catalog: it holds what [save_books]
    writes for the books in memory, or it does not exist and there is no
    book. *)
Definition mirrored {text} (json_dump : list pydict -> dump text)
    (w : World text) : Prop :=
  match file w with
  | Some t => json_dump (to_dict <$> books w) = Whole t
  | None => books w = []
  end.

(** The id of every book is an [int] that is at least the position of
    the book in the sequence, counted from 1. *)
Definition ids_from_position (bs : list Book) : Prop :=
  ∀ i b, bs !! i = Some b → ∃ n, id b = PyInt n ∧ Z.of_nat i + 1 ≤ n.

(** A book on which the condition of [search_books] raises for [query]:
    the query or the title has no method [lower], or the title does not
    match and the author has none. *)
Definition unsearchable (lower : pystr -> pystr) (query : pyval)
    (b : Book) : Prop :=
  is_int query ∨ is_int (title b) ∨
  ∃ q t, query = PyStr q ∧ title b = PyStr t ∧
         contains (lower q) (lower t) = false ∧ is_int (author b).

(** ** Further samples *)

(** Two novels whose years are numbers. *)
Definition novels : World pystr :=
  mkWorld [war_and_peace; emma] None [].

(** Two books with the ids 1 and 2. *)
Definition two_books : World pystr :=
  mkWorld [dune; war_and_peace] None [].

(** A catalog with a title that is a number. *)
Definition numbered : World pystr :=
  mkWorld [dune; mkBook (PyInt 2) (PyInt 1984) (PyStr (of_ascii "Orwell"))
                   (PyInt 1949) (PyStr in_stock)] None [].

(** A file whose second element has lost its year. *)
Definition torn : World pystr :=
  mkWorld [] (Some (text_of [to_dict dune; delete "year" (to_dict emma)])) [].

(** The element of "Dune" with one more key. *)
Definition annotated : pydict := <["shelf" := PyInt 3]> (to_dict dune).

(** What a user types, turn after turn. *)
Definition typed : list command :=
  [TypeAdd (of_ascii "Ulysses") (of_ascii "Joyce") (of_ascii "1922");
   TypeRemove 2;
   TypeSearch (of_ascii "18");
   TypeList;
   TypeOther (of_ascii "9");
   TypeStatus 1 lent_out].

(** * Properties *)

(** ** Strings *)

Example str_of_int_1965 : str_of_int 1965 = of_ascii "1965".
Proof. reflexivity. Qed.

Example str_of_int_negative : str_of_int (-40) = of_ascii "-40".
Proof. reflexivity. Qed.

Example str_of_int_zero : str_of_int 0 = of_ascii "0".
Proof. reflexivity. Qed.

Example lower_basic_status :
  lower_basic [1042; 32; 1053; 1040; 1051; 1048; 1063; 1048; 1048]%N
  = in_stock.
Proof. reflexivity. Qed.

Lemma startswith_prefix p s :
  startswith p s = true ↔ ∃ post, s = p ++ post.
Proof.
  revert s. induction p as [|a p IH]; intros s; simpl.
  - split; [intros _; by exists s | done].
  - destruct s as [|b s].
    + split; [done | intros [post Hpost]; discriminate].
    + rewrite andb_true_iff, N.eqb_eq, IH. split.
      * intros [-> [post ->]]. by exists post.
      * intros [post Hpost]. injection Hpost as -> ->. eauto.
Qed.

(** [contains] is the substring test. *)
Lemma contains_substring needle hay :
  contains needle hay = true ↔ ∃ pre post, hay = pre ++ needle ++ post.
Proof.
  induction hay as [|c hay IH]; simpl.
  - rewrite orb_false_r, startswith_prefix. split.
    + intros [post Hpost]. by exists [], post.
    + intros (pre & post & Heq). symmetry in Heq.
      apply app_eq_nil in Heq as [-> Heq].
      apply app_eq_nil in Heq as [-> ->]. by exists [].
  - rewrite orb_true_iff, startswith_prefix, IH. split.
    + intros [[post Hpost] | (pre & post & ->)].
      * by exists [], post.
      * by exists (c :: pre), post.
    + intros ([|c' pre] & post & Heq); simpl in Heq.
      * left. by exists post.
      * right. injection Heq as -> ->. by exists pre, post.
Qed.

(** The empty string occurs in every string. *)
Lemma contains_empty hay : contains [] hay = true.
Proof. by destruct hay. Qed.

(** ** The methods, run *)

Section LibraryFacts.
Context {text : Type}.
Variable json_dump : list pydict -> dump text.
Variable json_load : text -> result (list pydict).
Variable lower : pystr -> pystr.

Implicit Types (w : World text) (b : Book) (bs : list Book).

(** The world after [save_books] wrote the catalog [bs]. *)
Lemma save_books_run w :
  save_books json_dump w =
  (persisting json_dump (books w), persisted json_dump (books w) w).
Proof. reflexivity. Qed.

Lemma add_book_run title author year w :
  let new_book :=
    mkBook (PyInt (Z.of_nat (length (books w)) + 1)) title author year
      (PyStr in_stock) in
  let bs := books w ++ [new_book] in
  add_book json_dump title author year w =
  (persisting json_dump bs, persisted json_dump bs w).
Proof. reflexivity. Qed.

(** Where the loops of [remove_book] and [change_status] stop: a
    catalog with a book of the given id splits at the first one. *)
Lemma first_match_split book_id bs :
  (∃ b, b ∈ bs ∧ id b = book_id) →
  ∃ pre b post,
    bs = pre ++ b :: post ∧ id b = book_id ∧
    Forall (λ x, id x ≠ book_id) pre.
Proof.
  induction bs as [|x bs IH]; intros (b & Hin & Hid).
  - by apply elem_of_nil in Hin.
  - destruct (decide (id x = book_id)) as [Hx|Hx].
    + by exists [], x, bs.
    + apply elem_of_cons in Hin as [->|Hin]; [done|].
      destruct IH as (pre & b' & post & -> & Hb' & Hpre); [by exists b|].
      exists (x :: pre), b', post. by repeat constructor.
Qed.

Lemma remove_book_from_absent book_id i rest w :
  Forall (λ x, id x ≠ book_id) rest →
  remove_book_from json_dump book_id i rest w =
  (Ok tt, mkWorld (books w) (file w)
            (trace w ++ [Printed (NotFound book_id)])).
Proof.
  intros Hrest. revert i.
  induction Hrest as [|x rest Hx _ IH]; intros i; simpl; [done|].
  unfold py_eq. by rewrite bool_decide_eq_false_2.
Qed.

Lemma remove_book_from_first book_id i pre b post w :
  Forall (λ x, id x ≠ book_id) pre → id b = book_id →
  let bs := delete (i + length pre)%nat (books w) in
  remove_book_from json_dump book_id i (pre ++ b :: post) w =
  (persisting json_dump bs, persisted json_dump bs w).
Proof.
  intros Hpre Hb. revert i.
  induction Hpre as [|x pre Hx _ IH]; intros i; simpl.
  - unfold py_eq. rewrite bool_decide_eq_true_2 by done.
    by rewrite Nat.add_0_r.
  - unfold py_eq. rewrite bool_decide_eq_false_2 by done.
    rewrite IH.
    by replace (S i + length pre)%nat with (i + S (length pre))%nat by lia.
Qed.

Lemma change_status_from_absent book_id new_status i rest w :
  Forall (λ x, id x ≠ book_id) rest →
  change_status_from json_dump book_id new_status i rest w =
  (Ok tt, mkWorld (books w) (file w)
            (trace w ++ [Printed (NotFound book_id)])).
Proof.
  intros Hrest. revert i.
  induction Hrest as [|x rest Hx _ IH]; intros i; simpl; [done|].
  unfold py_eq. by rewrite bool_decide_eq_false_2.
Qed.

Lemma change_status_from_first book_id new_status i pre b post w :
  Forall (λ x, id x ≠ book_id) pre → id b = book_id →
  change_status_from json_dump book_id new_status i (pre ++ b :: post) w =
  if valid_status new_status then
    let bs := <[(i + length pre)%nat := set_status b new_status]> (books w) in
    (persisting json_dump bs, persisted json_dump bs w)
  else
    (Ok tt, mkWorld (books w) (file w) (trace w ++ [Printed InvalidStatus])).
Proof.
  intros Hpre Hb. revert i.
  induction Hpre as [|x pre Hx _ IH]; intros i; simpl.
  - unfold py_eq at 1. rewrite bool_decide_eq_true_2 by done.
    rewrite Nat.add_0_r. by destruct (valid_status new_status).
  - unfold py_eq at 1. rewrite bool_decide_eq_false_2 by done.
    rewrite IH.
    by replace (S i + length pre)%nat with (i + S (length pre))%nat by lia.
Qed.

(** The two ways [remove_book] ends. *)
Lemma remove_book_absent book_id w :
  Forall (λ x, id x ≠ book_id) (books w) →
  remove_book json_dump book_id w =
  (Ok tt, only_printed (NotFound book_id) w).
Proof.
  intros Habsent. unfold remove_book, mbind, M_bind, get_books.
  by apply remove_book_from_absent.
Qed.

Lemma remove_book_at_first book_id pre b post w :
  books w = pre ++ b :: post →
  Forall (λ x, id x ≠ book_id) pre → id b = book_id →
  remove_book json_dump book_id w =
  (persisting json_dump (pre ++ post), persisted json_dump (pre ++ post) w).
Proof.
  intros Hsplit Hpre Hb.
  unfold remove_book, mbind, M_bind, get_books. rewrite Hsplit at 1.
  rewrite remove_book_from_first by done. simpl.
  by rewrite Hsplit, delete_middle.
Qed.

(** The three ways [change_status] ends. *)
Lemma change_status_absent book_id new_status w :
  Forall (λ x, id x ≠ book_id) (books w) →
  change_status json_dump book_id new_status w =
  (Ok tt, only_printed (NotFound book_id) w).
Proof.
  intros Habsent. unfold change_status, mbind, M_bind, get_books.
  by apply change_status_from_absent.
Qed.

Lemma change_status_at_first book_id new_status pre b post w :
  books w = pre ++ b :: post →
  Forall (λ x, id x ≠ book_id) pre → id b = book_id →
  change_status json_dump book_id new_status w =
  if valid_status new_status then
    (persisting json_dump (pre ++ set_status b new_status :: post), persisted json_dump (pre ++ set_status b new_status :: post) w)
  else (Ok tt, only_printed InvalidStatus w).
Proof.
  intros Hsplit Hpre Hb.
  unfold change_status, mbind, M_bind, get_books. rewrite Hsplit at 1.
  rewrite change_status_from_first by done.
  destruct (valid_status new_status); [|done]. simpl.
  rewrite Hsplit. replace (length pre) with (length pre + 0)%nat by lia.
  by rewrite insert_app_r.
Qed.

(** The statuses [change_status] accepts are the two of the source. *)
Lemma valid_status_iff new_status :
  valid_status new_status = true ↔
  new_status = PyStr in_stock ∨ new_status = PyStr lent_out.
Proof.
  unfold valid_status, py_eq.
  rewrite orb_true_iff, !bool_decide_eq_true.
  split; (intros [H|H]; [left|right]; congruence).
Qed.

(** Reading back what [to_dict] made of a book gives the book. *)
Lemma book_of_dict_to_dict b : book_of_dict (to_dict b) = Ok b.
Proof. by destruct b. Qed.

Lemma rmap_book_of_dict_to_dict bs :
  rmap book_of_dict (to_dict <$> bs) = Ok bs.
Proof.
  induction bs as [|b bs IH]; csimpl; [done|].
  rewrite book_of_dict_to_dict. csimpl. by rewrite IH.
Qed.

(** An element with the five fields is rebuilt from them. *)
Lemma book_of_dict_fields d :
  has_book_fields d → ∃ b, book_of_dict d = Ok b ∧ rebuilt_from d b.
Proof.
  intros ([i Hi] & [t Ht] & [a Ha] & [y Hy] & [s Hs]).
  exists (mkBook i t a y s). unfold book_of_dict, getitem, rebuilt_from.
  by rewrite Hi, Ht, Ha, Hy, Hs.
Qed.

Lemma rmap_book_of_dict_fields data :
  Forall has_book_fields data →
  ∃ bs, rmap book_of_dict data = Ok bs ∧ Forall2 rebuilt_from data bs.
Proof.
  induction 1 as [|d data Hd _ (bs & Hbs & Hall)].
  - by exists [].
  - destruct (book_of_dict_fields d Hd) as (b & Hb & Hfrom).
    exists (b :: bs). simpl. rewrite Hb. simpl. rewrite Hbs.
    by split; [|constructor].
Qed.

(** An element without one of the fields stops the load: [d[key]]
    raises [KeyError] for the first field that is missing. *)
Lemma book_of_dict_missing d :
  ¬ has_book_fields d → ∃ key, book_of_dict d = Raise (KeyError key).
Proof.
  intros Hmissing. unfold book_of_dict, getitem.
  destruct (d !! "id") eqn:Hi; [|by eexists].
  destruct (d !! "title") eqn:Ht; [|by eexists].
  destruct (d !! "author") eqn:Ha; [|by eexists].
  destruct (d !! "year") eqn:Hy; [|by eexists].
  destruct (d !! "status") eqn:Hs; [|by eexists].
  destruct Hmissing. unfold has_book_fields.
  by rewrite Hi, Ht, Ha, Hy, Hs.
Qed.

(** The only exception of the comprehension of [load_books] is the
    [KeyError] of a missing field. *)
Lemma rmap_book_of_dict_missing data :
  Exists (λ d, ¬ has_book_fields d) data →
  ∃ key, rmap book_of_dict data = Raise (KeyError key).
Proof.
  induction 1 as [d data Hd|d data _ [key IH]]; simpl.
  - destruct (book_of_dict_missing d Hd) as [key ->]. by exists key.
  - destruct (decide (has_book_fields d)) as [Hd|Hd].
    + destruct (book_of_dict_fields d Hd) as (b & -> & _). simpl.
      rewrite IH. by exists key.
    + destruct (book_of_dict_missing d Hd) as [key' ->]. by exists key'.
Qed.

(** A file with an element that lacks a field stops the construction
    with that [KeyError], and the sequence is still empty. *)
Lemma Library_init_missing_field w t data :
  file w = Some t → json_load t = Ok data →
  Exists (λ d, ¬ has_book_fields d) data →
  ∃ key, Library_init json_load w =
         (Raise (KeyError key), mkWorld [] (file w) (trace w)).
Proof.
  intros Hfile Hload [key Hkey]%rmap_book_of_dict_missing. exists key.
  unfold Library_init, load_books, mbind, M_bind, set_books, path_exists,
    read_json, lift. simpl.
  rewrite Hfile. simpl. by rewrite Hload, Hkey.
Qed.

End LibraryFacts.

(** ** The catalog operations *)

Section Catalog.
Context {text : Type}.
Variable json_dump : list pydict -> dump text.
Variable json_load : text -> result (list pydict).

Implicit Types (w : World text) (b : Book) (bs : list Book).

(** C6, as amended.  [add_book] appends exactly one record at the end
    of the sequence: its id is the length of the sequence before the
    call plus one, its title, author and year are the arguments, its
    status is the default "в наличии".  It does so whatever the catalog
    already holds (no check against the existing titles and authors),
    and it writes the new sequence to the backing file afterwards.  When
    [json.dump] writes the whole document the call returns and the file
    holds it; when [json.dump] raises, the call raises, the file holds
    the text written so far, and the record stays in the sequence. *)
Theorem add_book_appends t a y w :
  ∃ new_book,
    id new_book = PyInt (Z.of_nat (length (books w)) + 1) ∧
    title new_book = t ∧ author new_book = a ∧ year new_book = y ∧
    status new_book = PyStr in_stock ∧
    let bs := books w ++ [new_book] in
    (∀ doc, json_dump (to_dict <$> bs) = Whole doc →
       add_book json_dump t a y w =
       (Ok tt, mkWorld bs (Some doc) (trace w ++ [Written doc]))) ∧
    (∀ part e, json_dump (to_dict <$> bs) = Cut part e →
       add_book json_dump t a y w =
       (Raise e, mkWorld bs (Some part) (trace w ++ [Written part]))).
Proof.
  exists (mkBook (PyInt (Z.of_nat (length (books w)) + 1)) t a y
            (PyStr in_stock)).
  repeat split; try done.
  - intros doc Hdump. rewrite add_book_run. unfold persisting, persisted.
    by rewrite Hdump.
  - intros part e Hdump. rewrite add_book_run. unfold persisting, persisted.
    by rewrite Hdump.
Qed.

(** C4. From an empty catalog, three calls of [add_book] give the ids 1,
    2 and 3; once the book of id 2 is removed, the next [add_book] gives
    the id 3 again: the id comes from the current count. *)
Theorem id_assignment_by_count f tr t1 a1 y1 t2 a2 y2 t3 a3 y3 t4 a4 y4 :
  let w0 := mkWorld [] f tr in
  let b1 := mkBook (PyInt 1) t1 a1 y1 (PyStr in_stock) in
  let b2 := mkBook (PyInt 2) t2 a2 y2 (PyStr in_stock) in
  let b3 := mkBook (PyInt 3) t3 a3 y3 (PyStr in_stock) in
  let b4 := mkBook (PyInt 3) t4 a4 y4 (PyStr in_stock) in
  let w1 := exec (add_book json_dump t1 a1 y1) w0 in
  let w2 := exec (add_book json_dump t2 a2 y2) w1 in
  let w3 := exec (add_book json_dump t3 a3 y3) w2 in
  let w4 := exec (remove_book json_dump (PyInt 2)) w3 in
  let w5 := exec (add_book json_dump t4 a4 y4) w4 in
  books w1 = [b1] ∧ books w2 = [b1; b2] ∧ books w3 = [b1; b2; b3] ∧
  books w4 = [b1; b3] ∧ books w5 = [b1; b3; b4].
Proof. by repeat split. Qed.

(** C7. [remove_book] with an id that no record has leaves the sequence
    as it is, prints the "not found" message, does not write the file,
    and returns normally. *)
Theorem remove_book_not_found book_id w :
  (∀ b, b ∈ books w → id b ≠ book_id) →
  remove_book json_dump book_id w =
  (Ok tt, only_printed (NotFound book_id) w).
Proof.
  intros Habsent. by apply remove_book_absent, Forall_forall.
Qed.

(** C10. [remove_book] with an id that some record has deletes the first
    record with that id and nothing else: the records before it and
    after it stay as they are and in their order, also those after it
    that have the same id.  The sequence that is left is then written,
    and the call ends as the write ends. *)
Theorem remove_book_removes_first book_id w :
  (∃ b, b ∈ books w ∧ id b = book_id) →
  ∃ pre b post,
    books w = pre ++ b :: post ∧ id b = book_id ∧
    Forall (λ x, id x ≠ book_id) pre ∧
    remove_book json_dump book_id w =
    (persisting json_dump (pre ++ post),
     persisted json_dump (pre ++ post) w).
Proof.
  intros (pre & b & post & Hsplit & Hb & Hpre)%first_match_split.
  exists pre, b, post. repeat split; [done..|].
  by apply remove_book_at_first with b.
Qed.

(** C8. [change_status] with the id of a record and one of the two
    statuses changes the status of the first record with that id: the
    other four fields of that record, every other record, and the order
    of the sequence stay as they are.  The sequence is then written, and
    the call ends as the write ends. *)
Theorem change_status_frame book_id new_status w :
  new_status = PyStr in_stock ∨ new_status = PyStr lent_out →
  (∃ b, b ∈ books w ∧ id b = book_id) →
  ∃ pre b post b',
    books w = pre ++ b :: post ∧ id b = book_id ∧
    Forall (λ x, id x ≠ book_id) pre ∧
    same_but_status b b' ∧ status b' = new_status ∧
    change_status json_dump book_id new_status w =
    (persisting json_dump (pre ++ b' :: post),
     persisted json_dump (pre ++ b' :: post) w).
Proof.
  intros Hvalid%valid_status_iff
    (pre & b & post & Hsplit & Hb & Hpre)%first_match_split.
  exists pre, b, post, (set_status b new_status).
  repeat split; [done..|].
  rewrite (change_status_at_first _ _ _ pre b post) by done.
  by rewrite Hvalid.
Qed.

(** C3, as amended.  [change_status] with a status outside the two of
    the source changes nothing and writes nothing.  What it prints
    depends on the id: the "invalid status" message when a record has
    the id, the "not found" message when none has. *)
Theorem change_status_invalid book_id new_status w :
  valid_status new_status = false →
  ((∃ b, b ∈ books w ∧ id b = book_id) →
   change_status json_dump book_id new_status w =
   (Ok tt, only_printed InvalidStatus w)) ∧
  ((∀ b, b ∈ books w → id b ≠ book_id) →
   change_status json_dump book_id new_status w =
   (Ok tt, only_printed (NotFound book_id) w)).
Proof.
  intros Hinvalid. split.
  - intros (pre & b & post & Hsplit & Hb & Hpre)%first_match_split.
    rewrite (change_status_at_first _ _ _ pre b post) by done.
    by rewrite Hinvalid.
  - intros Habsent. by apply change_status_absent, Forall_forall.
Qed.

(** C9. [Library.__init__] starts with an empty sequence when the
    backing file does not exist.  When it exists and holds elements with
    the five fields, the sequence has one record for each element, in
    the order of the file, each rebuilt from the id, title, author, year
    and status of its element. *)
Theorem Library_init_loads w :
  (file w = None →
   Library_init json_load w = (Ok tt, mkWorld [] None (trace w))) ∧
  (∀ t data,
     file w = Some t → json_load t = Ok data →
     Forall has_book_fields data →
     ∃ bs, Forall2 rebuilt_from data bs ∧
           Library_init json_load w =
           (Ok tt, mkWorld bs (file w) (trace w))).
Proof.
  split.
  - intros Hfile. unfold Library_init, load_books, mbind, M_bind,
      set_books, path_exists. simpl. by rewrite Hfile.
  - intros t data Hfile Hload Hfields.
    destruct (rmap_book_of_dict_fields data Hfields) as (bs & Hbs & Hall).
    exists bs. split; [done|].
    unfold Library_init, load_books, mbind, M_bind, set_books,
      path_exists, read_json, lift. simpl.
    rewrite Hfile. simpl. by rewrite Hload, Hbs.
Qed.

(** C5. Writing a sequence of records with [save_books] and building a
    new [Library] over the file gives the same records, with the same
    id, title, author, year and status, in the same order, whatever
    code points the strings hold and whatever the new library had in
    memory.  The field values are valid when [json.dump] writes the
    whole document for them and [json.load] reads it back. *)
Theorem persist_load_round_trip w doc bs0 tr0 :
  json_dump (to_dict <$> books w) = Whole doc →
  json_load doc = Ok (to_dict <$> books w) →
  save_books json_dump w =
  (Ok tt, mkWorld (books w) (Some doc) (trace w ++ [Written doc])) ∧
  Library_init json_load
    (mkWorld bs0 (file (exec (save_books json_dump) w)) tr0) =
  (Ok tt, mkWorld (books w) (Some doc) tr0).
Proof.
  intros Hdump Hload.
  assert (save_books json_dump w =
          (Ok tt, mkWorld (books w) (Some doc) (trace w ++ [Written doc])))
    as Hsave.
  { rewrite save_books_run. unfold persisting, persisted. by rewrite Hdump. }
  split; [done|]. unfold exec. rewrite Hsave.
  unfold Library_init, load_books, mbind, M_bind, set_books, path_exists,
    read_json, lift. simpl.
  by rewrite Hload, rmap_book_of_dict_to_dict.
Qed.

End Catalog.

(** ** Search *)

Section Search.
Context {text : Type}.
Variable lower : pystr -> pystr.

Implicit Types (w : World text) (b : Book) (q : pystr).

(** On a book whose title and author are strings the condition of the
    comprehension does not raise, and it is [code_matches]. *)
Lemma matches_code_matches q b :
  text_fields b → matches lower (PyStr q) b = Ok (code_matches lower q b).
Proof.
  intros [[t Ht] [a Ha]]. unfold matches, code_matches, ci_substring.
  rewrite Ht, Ha. simpl.
  destruct (contains (lower q) (lower t)); [done|]. simpl.
  by destruct (contains (lower q) (lower a)).
Qed.

Lemma rfilter_total {A} (p : A → result bool) (f : A → bool) xs :
  Forall (λ x, p x = Ok (f x)) xs → rfilter p xs = Ok (List.filter f xs).
Proof.
  induction 1 as [|x xs Hx _ IH]; simpl; [done|].
  rewrite Hx. simpl. rewrite IH. simpl. by destruct (f x).
Qed.

(** [search_books] returns the books that satisfy [code_matches], in
    the order of the sequence, and leaves the world as it is. *)
Lemma search_books_filter q w :
  Forall text_fields (books w) →
  search_books lower (PyStr q) w =
  (Ok (List.filter (code_matches lower q) (books w)), w).
Proof.
  intros Hfields. unfold search_books, mbind, M_bind, get_books, lift.
  rewrite (rfilter_total _ (code_matches lower q)); [done|].
  eapply Forall_impl; [done|]. intros b. apply matches_code_matches.
Qed.

(** Where the case mapping leaves the string form of every year alone
    (a year that is an [int], or a text without capitals), the search is
    the one of the specification. *)
Lemma search_books_spec q w :
  Forall text_fields (books w) →
  Forall (λ b, lower (py_str (year b)) = py_str (year b)) (books w) →
  search_books lower (PyStr q) w =
  (Ok (List.filter (spec_matches lower q) (books w)), w).
Proof.
  intros Hfields Hyears. rewrite search_books_filter by done.
  do 2 f_equal. induction Hyears as [|b bs Hb _ IH]; simpl; [done|].
  apply Forall_cons in Hfields as [_ Hfields].
  rewrite IH by done. unfold code_matches, spec_matches, ci_substring.
  by rewrite Hb.
Qed.

(** The empty query finds every book. *)
Lemma search_books_empty_query w :
  lower [] = [] → Forall text_fields (books w) →
  search_books lower (PyStr []) w = (Ok (books w), w).
Proof.
  intros Hlower Hfields. rewrite search_books_filter by done.
  do 2 f_equal. induction (books w) as [|b bs IH]; simpl; [done|].
  apply Forall_cons in Hfields as [[[t Ht] _] Hfields].
  unfold code_matches at 1, ci_substring.
  by rewrite Hlower, contains_empty, IH.
Qed.

End Search.

(** With any case mapping that lower-cases the four ASCII strings below as
    [str.lower] does, the query "AD" does not find "Dune" by its year
    "1965 AD", which the search of the specification does. *)
Lemma search_books_year_capitals {text} (lower : pystr → pystr) :
  lower (of_ascii "AD") = of_ascii "ad" →
  lower (of_ascii "Dune") = of_ascii "dune" →
  lower (of_ascii "Herbert") = of_ascii "herbert" →
  lower (of_ascii "1965 AD") = of_ascii "1965 ad" →
  let w := mkWorld [dune] (None : option text) [] in
  spec_matches lower (of_ascii "AD") dune = true ∧
  search_books lower (PyStr (of_ascii "AD")) w = (Ok [], w).
Proof.
  intros Hquery Htitle Hauthor Hyear w.
  rewrite search_books_filter
    by (repeat constructor; by eexists).
  unfold spec_matches, code_matches, ci_substring. simpl.
  by rewrite Hquery, Htitle, Hauthor, Hyear.
Qed.

(** C2. The search does not fold the case of the year.  "Dune" has the
    year "1965 AD": the queries "AD" and "ad" are case-insensitive
    substrings of it, so the search of the specification finds the book
    for both; [search_books] finds it for neither, although it finds it
    by its title whatever the case of the query. *)
Theorem search_books_year_keeps_case :
  let w := mkWorld [dune] (None : option (list pydict)) [] in
  let AD := of_ascii "AD" in
  let ad := of_ascii "ad" in
  spec_matches lower_basic AD dune = true ∧
  spec_matches lower_basic ad dune = true ∧
  search_books lower_basic (PyStr AD) w = (Ok [], w) ∧
  search_books lower_basic (PyStr ad) w = (Ok [], w) ∧
  search_books lower_basic (PyStr (of_ascii "DUNE")) w = (Ok [dune], w).
Proof. by repeat split. Qed.

(** ** The ids of a catalog *)

Section Ids.
Context {text : Type}.
Variable json_dump : list pydict -> dump text.

Implicit Types (w : World text) (op : operation) (bs : list Book).

(** [change_status] leaves every id as it is. *)
Lemma change_status_ids book_id new_status w :
  ids (books (exec (change_status json_dump book_id new_status) w)) =
  ids (books w).
Proof.
  unfold exec.
  destruct (decide (Exists (λ b, id b = book_id) (books w))) as [Hex|Hno].
  - apply Exists_exists, first_match_split in Hex
      as (pre & b & post & Hsplit & Hb & Hpre).
    rewrite (change_status_at_first _ _ _ pre b post) by done.
    destruct (valid_status new_status); [|done].
    simpl. unfold ids. by rewrite Hsplit, !fmap_app.
  - apply not_Exists_Forall in Hno; [|apply _].
    by rewrite change_status_absent.
Qed.

(** A sequence of operations stops at the first one that raises. *)
Lemma perform_all_cons op ops w :
  perform_all json_dump (op :: ops) w =
  match outcome (perform json_dump op) w with
  | Ok _ => perform_all json_dump ops (exec (perform json_dump op) w)
  | Raise e => (Raise e, exec (perform json_dump op) w)
  end.
Proof.
  unfold outcome, exec. simpl. unfold mbind, M_bind.
  by destruct (perform json_dump op w) as [[[]|e] w'].
Qed.

(** What every operation of a kind keeps, a sequence of them keeps. *)
Lemma perform_all_keeps (P : operation → Prop) (I : World text → Prop) :
  (∀ op w, P op → I w → I (exec (perform json_dump op) w)) →
  ∀ ops w, Forall P ops → I w → I (exec (perform_all json_dump ops) w).
Proof.
  intros Hkeeps ops w Hops. revert w.
  induction Hops as [|op ops Hop _ IH]; intros w Hw; [done|].
  unfold exec. rewrite perform_all_cons.
  destruct (outcome (perform json_dump op) w); [apply IH|]; by apply Hkeeps.
Qed.

(** Adding and changing statuses keep the ids 1, 2, ... *)
Lemma perform_counted op w :
  keeps_books op → counted (books w) →
  counted (books (exec (perform json_dump op) w)).
Proof.
  unfold counted.
  destruct op as [t a y|book_id|book_id new_status];
    cbn [perform keeps_books]; intros Hop Hids; [|done|].
  - unfold exec. rewrite add_book_run. simpl. unfold ids in *.
    rewrite fmap_app, length_app, Hids. simpl.
    rewrite Nat.add_1_r, seq_S, fmap_app. simpl.
    do 3 f_equal. lia.
  - pose proof (change_status_ids book_id new_status w) as Hsame.
    unfold ids in *. rewrite Hsame, Hids. do 2 f_equal.
    by rewrite <- (length_fmap id (books (exec _ w))), Hsame, length_fmap.
Qed.

(** Without a removal the ids of a catalog that started empty are 1, 2,
    ..., so they are distinct. *)
Lemma ids_distinct_without_removal ops :
  Forall keeps_books ops →
  NoDup (ids (books (exec (perform_all json_dump ops) empty_catalog))).
Proof.
  intros Hops.
  assert (counted
    (books (exec (perform_all json_dump ops) empty_catalog))) as Hcounted.
  { apply (perform_all_keeps keeps_books (λ w, counted (books w)));
      [apply perform_counted|done..]. }
  rewrite Hcounted.
  apply NoDup_fmap_2, NoDup_seq.
  intros m n Heq. injection Heq. lia.
Qed.

(** C1. The ids of a catalog are not always distinct.  Two books are
    added to an empty catalog, the first one is removed, a third one is
    added: the count is 1 again, the new book gets the id 2, and the
    catalog holds two books of id 2.  This is so after the four calls,
    however their writes end; and when the four operations run as one
    sequence that returns, it leaves that catalog. *)
Theorem ids_repeat_after_removal t1 a1 y1 t2 a2 y2 t3 a3 y3 :
  let w1 := exec (perform json_dump (Add t1 a1 y1)) empty_catalog in
  let w2 := exec (perform json_dump (Add t2 a2 y2)) w1 in
  let w3 := exec (perform json_dump (Remove (PyInt 1))) w2 in
  let w4 := exec (perform json_dump (Add t3 a3 y3)) w3 in
  let ops := [Add t1 a1 y1; Add t2 a2 y2; Remove (PyInt 1); Add t3 a3 y3] in
  ids (books w1) = [PyInt 1] ∧ ids (books w2) = [PyInt 1; PyInt 2] ∧
  ids (books w3) = [PyInt 2] ∧ ids (books w4) = [PyInt 2; PyInt 2] ∧
  ¬ NoDup (ids (books w4)) ∧
  (outcome (perform_all json_dump ops) empty_catalog = Ok tt →
   exec (perform_all json_dump ops) empty_catalog = w4).
Proof.
  intros w1 w2 w3 w4 ops. do 4 (split; [done|]). split.
  - simpl. intros Hdistinct.
    apply NoDup_cons in Hdistinct as [Hfresh _].
    apply Hfresh. by left.
  - unfold ops, outcome, exec. rewrite !perform_all_cons.
    fold w1. destruct (outcome _ empty_catalog) as [[]|e]; [|done].
    fold w2. destruct (outcome _ w1) as [[]|e]; [|done].
    fold w3. destruct (outcome _ w2) as [[]|e]; [|done].
    fold w4. by destruct (outcome _ w3) as [[]|e].
Qed.

End Ids.

(** ** The theorems at the sample catalog *)

(** A title and an author that the catalog already has are added again. *)
Example add_book_twice :
  let again := add_book text_dump (title emma) (author emma) (year emma) in
  books (exec again shelf) =
  [dune; war_and_peace; emma;
   mkBook (PyInt 4) (title emma) (author emma) (year emma) (PyStr in_stock)].
Proof. reflexivity. Qed.

(** After "Dune" is added, the query "dune" finds it in any case. *)
Example add_book_then_search :
  let add := add_book text_dump (PyStr (of_ascii "Dune"))
               (PyStr (of_ascii "Herbert")) (PyInt 1965) in
  let found := mkBook (PyInt 1) (PyStr (of_ascii "Dune"))
                 (PyStr (of_ascii "Herbert")) (PyInt 1965) (PyStr in_stock) in
  let w := exec add empty_catalog in
  outcome (search_books lower_basic (PyStr (of_ascii "dune"))) w = Ok [found] ∧
  outcome (search_books lower_basic (PyStr (of_ascii "DuNE"))) w = Ok [found].
Proof. by split. Qed.

Example remove_book_shelf :
  remove_book text_dump (PyInt 2) shelf =
  (Ok tt, persisted text_dump [dune; emma] shelf).
Proof. compute_done. Qed.

Example change_status_shelf :
  books (exec (change_status text_dump (PyInt 2) (PyStr in_stock)) shelf) =
  [dune; set_status war_and_peace (PyStr in_stock); emma].
Proof. reflexivity. Qed.

Example search_books_shelf :
  outcome (search_books lower_basic (PyStr (of_ascii "18"))) shelf =
  Ok [war_and_peace; emma].
Proof. reflexivity. Qed.

Lemma remove_book_not_found_shelf :
  (∀ b, b ∈ books shelf → id b ≠ PyInt 999) ∧
  remove_book text_dump (PyInt 999) shelf =
  (Ok tt, only_printed (NotFound (PyInt 999)) shelf).
Proof.
  assert (∀ b, b ∈ books shelf → id b ≠ PyInt 999) as Habsent.
  { apply Forall_forall. by repeat constructor. }
  split; [done|]. by apply remove_book_not_found.
Defined.

Lemma remove_book_removes_first_shelf :
  (∃ b, b ∈ books shelf ∧ id b = PyInt 2) ∧
  ∃ pre b post,
    books shelf = pre ++ b :: post ∧ id b = PyInt 2 ∧
    Forall (λ x, id x ≠ PyInt 2) pre ∧
    remove_book text_dump (PyInt 2) shelf =
    (persisting text_dump (pre ++ post),
     persisted text_dump (pre ++ post) shelf).
Proof.
  assert (∃ b, b ∈ books shelf ∧ id b = PyInt 2) as Hpresent.
  { exists emma. split; [|done]. simpl. do 2 right. left. }
  split; [done|]. by apply remove_book_removes_first.
Defined.

Lemma change_status_frame_shelf :
  (PyStr in_stock = PyStr in_stock ∨ PyStr in_stock = PyStr lent_out) ∧
  (∃ b, b ∈ books shelf ∧ id b = PyInt 2) ∧
  ∃ pre b post b',
    books shelf = pre ++ b :: post ∧ id b = PyInt 2 ∧
    Forall (λ x, id x ≠ PyInt 2) pre ∧
    same_but_status b b' ∧ status b' = PyStr in_stock ∧
    change_status text_dump (PyInt 2) (PyStr in_stock) shelf =
    (persisting text_dump (pre ++ b' :: post),
     persisted text_dump (pre ++ b' :: post) shelf).
Proof.
  assert (∃ b, b ∈ books shelf ∧ id b = PyInt 2) as Hpresent.
  { exists war_and_peace. split; [|done]. simpl. right. left. }
  split; [by left|]. split; [done|].
  apply change_status_frame; [by left|done].
Defined.

Lemma change_status_invalid_shelf :
  valid_status lost = false ∧
  change_status text_dump (PyInt 2) lost shelf =
  (Ok tt, only_printed InvalidStatus shelf) ∧
  change_status text_dump (PyInt 999) lost shelf =
  (Ok tt, only_printed (NotFound (PyInt 999)) shelf).
Proof.
  split; [reflexivity|]. split.
  - apply change_status_invalid; [reflexivity|].
    exists war_and_peace. split; [|done]. simpl. right. left.
  - apply change_status_invalid; [reflexivity|].
    apply Forall_forall. by repeat constructor.
Defined.

(** C3, as it is stated, fails where no record has the id: on the empty
    catalog, [change_status(1, "lost")] prints the "not found" message,
    not the "invalid status" one. *)
Lemma change_status_invalid_unknown_id :
  ¬ ∀ (w : World pystr) book_id new_status,
      valid_status new_status = false →
      change_status text_dump book_id new_status w =
      (Ok tt, only_printed InvalidStatus w).
Proof.
  intros Hclaim.
  specialize (Hclaim empty_catalog (PyInt 1) lost eq_refl).
  discriminate Hclaim.
Qed.

Lemma Library_init_loads_shelf :
  file (empty_catalog : World pystr) = None ∧
  Library_init text_load empty_catalog = (Ok tt, mkWorld [] None []) ∧
  file shelf_on_disk = Some (text_of (to_dict <$> books shelf)) ∧
  text_load (text_of (to_dict <$> books shelf)) =
  Ok (to_dict <$> books shelf) ∧
  Forall has_book_fields (to_dict <$> books shelf) ∧
  ∃ bs, Forall2 rebuilt_from (to_dict <$> books shelf) bs ∧
        Library_init text_load shelf_on_disk =
        (Ok tt, mkWorld bs (file shelf_on_disk) (trace shelf_on_disk)).
Proof.
  assert (Forall has_book_fields (to_dict <$> books shelf)) as Hfields.
  { repeat constructor; by eexists. }
  assert (text_load (text_of (to_dict <$> books shelf)) =
          Ok (to_dict <$> books shelf)) as Hload by compute_done.
  split; [done|].
  split; [by apply (Library_init_loads text_load empty_catalog)|].
  do 3 (split; [done|]).
  by apply (Library_init_loads text_load shelf_on_disk)
    with (text_of (to_dict <$> books shelf)).
Defined.

(** The catalog of [shelf], with a title and an author in Russian, is
    written as text and read back by a library that had another book in
    memory. *)
Lemma persist_load_round_trip_shelf :
  let doc := text_of (to_dict <$> books shelf) in
  text_dump (to_dict <$> books shelf) = Whole doc ∧
  text_load doc = Ok (to_dict <$> books shelf) ∧
  save_books text_dump shelf =
  (Ok tt, mkWorld (books shelf) (Some doc) (trace shelf ++ [Written doc])) ∧
  Library_init text_load
    (mkWorld [emma] (file (exec (save_books text_dump) shelf)) []) =
  (Ok tt, mkWorld (books shelf) (Some doc) []).
Proof.
  intros doc.
  assert (text_dump (to_dict <$> books shelf) = Whole doc) as Hdump
    by compute_done.
  assert (text_load doc = Ok (to_dict <$> books shelf)) as Hload
    by compute_done.
  do 2 (split; [done|]).
  by apply (persist_load_round_trip text_dump text_load shelf doc [emma] []).
Defined.

(** C6, as it is stated, fails for a title that UTF-8 cannot encode, a
    lone surrogate (U+D800): [add_book] raises [UnicodeEncodeError], the
    book is in the sequence, and the file holds a text cut short, which
    does not load any more. *)
Lemma add_book_lone_surrogate :
  let add := add_book text_dump (PyStr [55296%N]) (PyStr (of_ascii "A"))
               (PyStr (of_ascii "1")) in
  let w := exec add empty_catalog in
  outcome add empty_catalog = Raise UnicodeEncodeError ∧
  books w =
  [mkBook (PyInt 1) (PyStr [55296%N]) (PyStr (of_ascii "A"))
     (PyStr (of_ascii "1")) (PyStr in_stock)] ∧
  ∃ part, file w = Some part ∧ text_load part = Raise JSONDecodeError.
Proof.
  split; [compute_done|]. split; [done|].
  eexists. split; [done|]. compute_done.
Qed.

(** On ordinary text the write is whole and [add_book] returns: a
    title and an author that the catalog has already are added again. *)
Lemma add_book_appends_shelf :
  let bs := books shelf ++
            [mkBook (PyInt 4) (title war_and_peace) (author war_and_peace)
               (year war_and_peace) (PyStr in_stock)] in
  let doc := text_of (to_dict <$> bs) in
  text_dump (to_dict <$> bs) = Whole doc ∧
  add_book text_dump (title war_and_peace) (author war_and_peace)
    (year war_and_peace) shelf =
  (Ok tt, mkWorld bs (Some doc) (trace shelf ++ [Written doc])).
Proof.
  intros bs doc.
  assert (text_dump (to_dict <$> bs) = Whole doc) as Hdump by compute_done.
  split; [done|].
  destruct (add_book_appends text_dump (title war_and_peace)
              (author war_and_peace) (year war_and_peace) shelf)
    as ([i t a y st] & Hi & Ht & Ha & Hy & Hst & Hwhole & _).
  simpl in Hi, Ht, Ha, Hy, Hst. subst i t a y st.
  by apply Hwhole.
Defined.

(** The four operations of C1 on ordinary text, in one sequence. *)
Lemma ids_repeat_after_removal_shelf :
  let ops := [Add (title dune) (author dune) (year dune);
              Add (title emma) (author emma) (year emma);
              Remove (PyInt 1);
              Add (title war_and_peace) (author war_and_peace)
                (year war_and_peace)] in
  let w := exec (perform_all text_dump ops) empty_catalog in
  outcome (perform_all text_dump ops) empty_catalog = Ok tt ∧
  ids (books w) = [PyInt 2; PyInt 2] ∧
  ¬ NoDup (ids (books w)).
Proof.
  intros ops w.
  assert (outcome (perform_all text_dump ops) empty_catalog = Ok tt) as Hok
    by compute_done.
  split; [done|].
  destruct (ids_repeat_after_removal text_dump
              (title dune) (author dune) (year dune)
              (title emma) (author emma) (year emma)
              (title war_and_peace) (author war_and_peace)
              (year war_and_peace))
    as (_ & _ & _ & Hids & Hrepeat & Hsequence).
  unfold w, ops. rewrite (Hsequence Hok). split; [exact Hids|exact Hrepeat].
Defined.

(** * Further properties *)

(** ** Searching *)

Section SearchMore.
Context {text : Type}.
Variable lower : pystr -> pystr.

Implicit Types (w : World text) (b : Book) (q : pystr).

Lemma code_matches_occurs q b :
  code_matches lower q b = true ↔
  occurs_in (lower q) (lower (py_str (title b))) ∨
  occurs_in (lower q) (lower (py_str (author b))) ∨
  occurs_in (lower q) (py_str (year b)).
Proof.
  unfold code_matches, ci_substring, occurs_in.
  rewrite !orb_true_iff, !contains_substring. tauto.
Qed.

(** X1. On a catalog whose titles and authors are strings,
    [search_books] returns, in the order of the catalog, the books for
    which the lower-cased query occurs in the lower-cased title, in the
    lower-cased author, or in the string form of the year as it is; it
    changes neither the catalog nor the file and prints nothing. *)
Theorem search_books_finds q w :
  Forall text_fields (books w) →
  search_books lower (PyStr q) w =
  (Ok (List.filter (code_matches lower q) (books w)), w) ∧
  ∀ b, b ∈ List.filter (code_matches lower q) (books w) ↔
       b ∈ books w ∧
       (occurs_in (lower q) (lower (py_str (title b))) ∨
        occurs_in (lower q) (lower (py_str (author b))) ∨
        occurs_in (lower q) (py_str (year b))).
Proof.
  intros Hfields. split; [by apply search_books_filter|].
  intros b. rewrite list_elem_of_In, filter_In, <- list_elem_of_In.
  by rewrite code_matches_occurs.
Qed.

(** X2. The empty query finds every book of a catalog whose titles and
    authors are strings: the empty string occurs in every title. *)
Theorem search_books_empty_query_all w :
  lower [] = [] → Forall text_fields (books w) →
  search_books lower (PyStr []) w = (Ok (books w), w).
Proof. apply search_books_empty_query. Qed.

Lemma matches_unsearchable query b :
  (unsearchable lower query b ∧
   matches lower query b = Raise AttributeError) ∨
  (¬ unsearchable lower query b ∧ ∃ r, matches lower query b = Ok r).
Proof.
  unfold unsearchable, matches, is_int.
  destruct query as [n|q]; [left; split; [eauto|done]|]. simpl.
  destruct (title b) as [n|t] eqn:Ht; [left; split; [eauto|done]|]. simpl.
  destruct (contains (lower q) (lower t)) eqn:Hin.
  { right. split; [|by eexists].
    intros [[? [=]]|[[? [=]]|(q' & t' & [= <-] & [= <-] & Hno & _)]].
    congruence. }
  destruct (author b) as [n|a] eqn:Ha; simpl.
  - left. split; [|done]. right. right. exists q, t. eauto.
  - right. split.
    + intros [[? [=]]|[[? [=]]|(q' & t' & _ & _ & _ & [? [=]])]].
    + destruct (contains (lower q) (lower a)); by eexists.
Qed.

Lemma rfilter_unsearchable query bs :
  (Exists (unsearchable lower query) bs ∧
   rfilter (matches lower query) bs = Raise AttributeError) ∨
  (¬ Exists (unsearchable lower query) bs ∧
   ∃ found, rfilter (matches lower query) bs = Ok found).
Proof.
  induction bs as [|b bs IH]; simpl.
  - right. split; [by intros ?%Exists_nil|by eexists].
  - destruct (matches_unsearchable query b) as [[Hb ->]|[Hb [r ->]]]; simpl.
    + left. split; [by left|done].
    + destruct IH as [[Hbs ->]|[Hbs [found ->]]]; simpl.
      * left. split; [by right|done].
      * right. split; [|by eexists].
        by intros [?|?]%Exists_cons.
Qed.

(** X3. [search_books] raises exactly when the catalog has a book on
    which the condition cannot be evaluated: the exception is
    [AttributeError], for a query or a title that is not a string, or for
    an author that is not a string in a book whose title does not match.
    An author is not looked at when the title matches, and the empty
    catalog never raises.  In both cases the world is left as it is. *)
Theorem search_books_raises_iff query w :
  (Exists (unsearchable lower query) (books w) →
   search_books lower query w = (Raise AttributeError, w)) ∧
  (¬ Exists (unsearchable lower query) (books w) →
   ∃ found, search_books lower query w = (Ok found, w)).
Proof.
  unfold search_books, mbind, M_bind, get_books, lift. simpl.
  destruct (rfilter_unsearchable query (books w))
    as [[Hbad ->]|[Hgood [found ->]]].
  - split; [done|]. by intros [].
  - split; [by intros ?|]. by exists found.
Qed.

Lemma of_ascii_digits d :
  Forall digit_or_minus (of_ascii (NilEmpty.string_of_uint d)).
Proof.
  induction d; simpl; [constructor|..];
    (constructor; [right; compute_done|done]).
Qed.

(** The string form of an [int] has only digits and the minus sign. *)
Lemma str_of_int_digits n : Forall digit_or_minus (str_of_int n).
Proof.
  unfold str_of_int, NilZero.string_of_int, NilZero.string_of_uint.
  destruct (Z.to_int n) as [d|d].
  - destruct d; try apply of_ascii_digits.
    constructor; [right; compute_done|constructor].
  - change (Forall digit_or_minus
      (45%N :: of_ascii match d with
                        | Decimal.Nil => "0"
                        | _ => NilEmpty.string_of_uint d
                        end)).
    constructor; [by left|].
    destruct d; try apply of_ascii_digits.
    constructor; [right; compute_done|constructor].
Qed.

(** X4. When the year of every book is an [int], and titles and authors
    are strings, [search_books] is the search of the specification: it
    returns the books of which the query is a case-insensitive substring
    of the title, the author, or the string form of the year.  The case
    mapping is asked to leave digits and the minus sign alone. *)
Theorem search_books_int_years q w :
  (∀ s, Forall digit_or_minus s → lower s = s) →
  Forall text_fields (books w) →
  Forall (λ b, is_int (year b)) (books w) →
  search_books lower (PyStr q) w =
  (Ok (List.filter (spec_matches lower q) (books w)), w).
Proof.
  intros Hlower Hfields Hyears. apply search_books_spec; [done|].
  eapply Forall_impl; [done|]. intros b [n ->]. simpl.
  apply Hlower, str_of_int_digits.
Qed.

End SearchMore.

(** ** Loading and writing *)

Lemma elem_of_book_keys key :
  key ∈ book_keys ↔
  key = "id" ∨ key = "title" ∨ key = "author" ∨ key = "year" ∨
  key = "status".
Proof.
  unfold book_keys. rewrite !elem_of_cons, elem_of_nil. tauto.
Qed.

Section LoadMore.
Context {text : Type}.
Variable json_load : text -> result (list pydict).

Implicit Types (w : World text) (b : Book) (d : pydict).

Lemma book_of_dict_key_error d e :
  book_of_dict d = Raise e →
  ∃ key, e = KeyError key ∧ key ∈ book_keys ∧ d !! key = None.
Proof.
  unfold book_of_dict, getitem.
  destruct (d !! "id") eqn:Hi; simpl;
    [|intros [= <-]; eexists; rewrite elem_of_book_keys; by eauto 7].
  destruct (d !! "title") eqn:Ht; simpl;
    [|intros [= <-]; eexists; rewrite elem_of_book_keys; by eauto 7].
  destruct (d !! "author") eqn:Ha; simpl;
    [|intros [= <-]; eexists; rewrite elem_of_book_keys; by eauto 7].
  destruct (d !! "year") eqn:Hy; simpl;
    [|intros [= <-]; eexists; rewrite elem_of_book_keys; by eauto 7].
  destruct (d !! "status") eqn:Hs; simpl;
    [|intros [= <-]; eexists; rewrite elem_of_book_keys; by eauto 9].
  done.
Qed.

Lemma rmap_raise {A B} (f : A → result B) xs e :
  rmap f xs = Raise e → ∃ x, x ∈ xs ∧ f x = Raise e.
Proof.
  induction xs as [|x xs IH]; simpl; [done|].
  destruct (f x) as [y|e'] eqn:Hx; simpl.
  - destruct (rmap f xs) as [ys|e'']; simpl; [done|].
    intros [= ->]. destruct IH as (x' & Hin & Hx'); [done|].
    exists x'. split; [by right|done].
  - intros [= ->]. exists x. split; [by left|done].
Qed.

(** The run of [Library.__init__] over an existing file: it is decided
    by what [json.load] and the comprehension give. *)
Lemma Library_init_run w t :
  file w = Some t →
  Library_init json_load w =
  match json_load t with
  | Ok data =>
      match rmap book_of_dict data with
      | Ok bs => (Ok tt, mkWorld bs (file w) (trace w))
      | Raise e => (Raise e, mkWorld [] (file w) (trace w))
      end
  | Raise e => (Raise e, mkWorld [] (file w) (trace w))
  end.
Proof.
  intros Hfile.
  unfold Library_init, load_books, mbind, M_bind, set_books, path_exists,
    read_json, lift. simpl. rewrite Hfile. simpl.
  destruct (json_load t) as [data|e]; [|done].
  by destruct (rmap book_of_dict data).
Qed.

(** X5. When an element of the file lacks one of the five fields, the
    construction of the library raises [KeyError] for a field that some
    element lacks, and the sequence stays empty; the file is not
    touched. *)
Theorem Library_init_key_error w t data :
  file w = Some t → json_load t = Ok data →
  Exists (λ d, ¬ has_book_fields d) data →
  ∃ key d,
    d ∈ data ∧ key ∈ book_keys ∧ d !! key = None ∧
    Library_init json_load w =
    (Raise (KeyError key), mkWorld [] (file w) (trace w)).
Proof.
  intros Hfile Hload [key Hkey]%rmap_book_of_dict_missing.
  destruct (rmap_raise _ _ _ Hkey) as (d & Hd & Hraise).
  destruct (book_of_dict_key_error d _ Hraise) as (key' & [= <-] & Hin & Hno).
  exists key, d. repeat split; [done..|].
  by rewrite (Library_init_run w t), Hload, Hkey.
Qed.

Lemma book_of_dict_same_fields d d' :
  same_book_fields d d' → book_of_dict d = book_of_dict d'.
Proof.
  intros Hsame. unfold book_of_dict, getitem.
  rewrite !Hsame; [done|rewrite elem_of_book_keys; by eauto 9..].
Qed.

(** X6. The construction reads the five fields of each element and
    nothing else: two files whose elements agree on these fields, one to
    one, give the same outcome and the same sequence, whatever other keys
    their elements hold. *)
Theorem Library_init_reads_five_fields w w' t t' data data' :
  file w = Some t → file w' = Some t' →
  json_load t = Ok data → json_load t' = Ok data' →
  Forall2 same_book_fields data data' →
  outcome (Library_init json_load) w = outcome (Library_init json_load) w' ∧
  books (exec (Library_init json_load) w) =
  books (exec (Library_init json_load) w').
Proof.
  intros Hfile Hfile' Hload Hload' Hsame.
  assert (rmap book_of_dict data = rmap book_of_dict data') as Heq.
  { clear - Hsame.
    induction Hsame as [|d d' data data' Hd _ IH]; simpl; [done|].
    by rewrite (book_of_dict_same_fields d d'), IH. }
  unfold outcome, exec.
  rewrite (Library_init_run w t), (Library_init_run w' t') by done.
  rewrite Hload, Hload', Heq.
  by destruct (rmap book_of_dict data').
Qed.

(** X7. The construction only reads: whether it loads the file, finds
    none or raises, the file is as before and nothing is written or
    printed; and an exception of [json.load] is the outcome of the
    construction, with an empty sequence. *)
Theorem Library_init_only_reads w :
  file (exec (Library_init json_load) w) = file w ∧
  trace (exec (Library_init json_load) w) = trace w ∧
  ∀ t e, file w = Some t → json_load t = Raise e →
         Library_init json_load w =
         (Raise e, mkWorld [] (file w) (trace w)).
Proof.
  destruct (file w) as [t|] eqn:Hfile.
  - unfold exec. rewrite (Library_init_run w t) by done.
    repeat split.
    + destruct (json_load t) as [data|e]; [|exact Hfile].
      destruct (rmap book_of_dict data) as [bs|e]; exact Hfile.
    + destruct (json_load t) as [data|e]; [|done].
      by destruct (rmap book_of_dict data).
    + intros t' e [= <-] Hraise. by rewrite Hraise, Hfile.
  - unfold exec, Library_init, load_books, mbind, M_bind, set_books,
      path_exists. simpl. rewrite Hfile. simpl. by repeat split.
Qed.

End LoadMore.

(** X8. [to_dict] loses nothing: two sequences of books are written as
    the same document only when they are the same sequence. *)
Theorem to_dict_faithful (bs bs' : list Book) :
  to_dict <$> bs = to_dict <$> bs' ↔ bs = bs'.
Proof.
  split; [|by intros ->]. intros Heq.
  assert (rmap book_of_dict (to_dict <$> bs) = Ok bs') as Hback
    by (rewrite Heq; apply rmap_book_of_dict_to_dict).
  rewrite rmap_book_of_dict_to_dict in Hback. by injection Hback.
Qed.

Lemma to_dict_lookup b key :
  to_dict b !! key =
  if decide (key = "id") then Some (id b)
  else if decide (key = "title") then Some (title b)
  else if decide (key = "author") then Some (author b)
  else if decide (key = "year") then Some (year b)
  else if decide (key = "status") then Some (status b)
  else None.
Proof.
  unfold to_dict.
  repeat (case_decide; [subst; by simplify_map_eq|]).
  by simplify_map_eq.
Qed.

(** X9. An element with exactly the five keys is read as a book that
    [to_dict] writes back as the same element; and [to_dict] writes
    exactly the five keys. *)
Theorem to_dict_of_loaded (d : pydict) :
  has_book_fields d →
  (∀ key, is_Some (d !! key) → key ∈ book_keys) →
  ∃ b, book_of_dict d = Ok b ∧ to_dict b = d ∧
       ∀ key, is_Some (to_dict b !! key) ↔ key ∈ book_keys.
Proof.
  intros Hfields Hkeys.
  destruct (book_of_dict_fields d Hfields) as (b & Hb & Hi & Ht & Ha & Hy & Hs).
  assert (∀ key, is_Some (to_dict b !! key) ↔ key ∈ book_keys) as Hdom.
  { intros key. rewrite to_dict_lookup, elem_of_book_keys.
    repeat (case_decide; [subst; split; [by eauto 9|by eexists]|]).
    split; [by intros []|]. intros Hkey. exfalso. tauto. }
  exists b. repeat split; [done| |apply Hdom..].
  apply map_eq. intros key. rewrite to_dict_lookup.
  repeat (case_decide; [by subst|]).
  destruct (d !! key) eqn:Hkey; [|done].
  assert (key ∈ book_keys) as Hin by (apply Hkeys; by eexists).
  apply elem_of_book_keys in Hin. exfalso. tauto.
Qed.

(** ** Operations in sequence *)

Section CatalogMore.
Context {text : Type}.
Variable json_dump : list pydict -> dump text.
Variable json_load : text -> result (list pydict).

Implicit Types (w : World text) (b : Book) (bs : list Book).
Implicit Types (op : operation) (ops : list operation).

(** The two ways [remove_book] ends, and the three ways
    [change_status] ends. *)
Lemma remove_book_cases book_id w :
  (Forall (λ x, id x ≠ book_id) (books w) ∧
   remove_book json_dump book_id w =
   (Ok tt, only_printed (NotFound book_id) w)) ∨
  (∃ pre b post,
     books w = pre ++ b :: post ∧ id b = book_id ∧
     Forall (λ x, id x ≠ book_id) pre ∧
     remove_book json_dump book_id w =
     (persisting json_dump (pre ++ post),
      persisted json_dump (pre ++ post) w)).
Proof.
  destruct (decide (Exists (λ b, id b = book_id) (books w))) as [Hex|Hno].
  - apply Exists_exists, first_match_split in Hex
      as (pre & b & post & Hsplit & Hb & Hpre).
    right. exists pre, b, post. repeat split; [done..|].
    by apply remove_book_at_first with b.
  - apply not_Exists_Forall in Hno; [|apply _].
    left. split; [done|]. by apply remove_book_absent.
Qed.

Lemma change_status_cases book_id new_status w :
  (Forall (λ x, id x ≠ book_id) (books w) ∧
   change_status json_dump book_id new_status w =
   (Ok tt, only_printed (NotFound book_id) w)) ∨
  (∃ pre b post,
     books w = pre ++ b :: post ∧ id b = book_id ∧
     Forall (λ x, id x ≠ book_id) pre ∧
     change_status json_dump book_id new_status w =
     if valid_status new_status then
       (persisting json_dump (pre ++ set_status b new_status :: post),
        persisted json_dump (pre ++ set_status b new_status :: post) w)
     else (Ok tt, only_printed InvalidStatus w)).
Proof.
  destruct (decide (Exists (λ b, id b = book_id) (books w))) as [Hex|Hno].
  - apply Exists_exists, first_match_split in Hex
      as (pre & b & post & Hsplit & Hb & Hpre).
    right. exists pre, b, post. repeat split; [done..|].
    by apply change_status_at_first.
  - apply not_Exists_Forall in Hno; [|apply _].
    left. split; [done|]. by apply change_status_absent.
Qed.

Lemma perform_cases op w :
  (∃ bs, perform json_dump op w =
         (persisting json_dump bs, persisted json_dump bs w)) ∨
  (∃ m, perform json_dump op w = (Ok tt, only_printed m w)).
Proof.
  destruct op as [t a y|book_id|book_id new_status]; cbn [perform].
  - left. eexists. apply add_book_run.
  - destruct (remove_book_cases book_id w)
      as [[_ ->]|(pre & b & post & _ & _ & _ & ->)];
      [right|left]; by eexists.
  - destruct (change_status_cases book_id new_status w)
      as [[_ ->]|(pre & b & post & _ & _ & _ & ->)].
    + right. by eexists.
    + destruct (valid_status new_status); [left|right]; by eexists.
Qed.

(** X10. Every operation has exactly one visible effect.  Either it
    writes the backing file once, with what [json.dump] gives for the
    catalog it leaves in memory: the whole document, and the operation
    returns, or the text before an exception, and the operation raises
    it.  Or it prints one message, changes neither the catalog nor the
    file, and returns. *)
Theorem perform_one_effect op w :
  let w' := exec (perform json_dump op) w in
  (∃ doc, json_dump (to_dict <$> books w') = Whole doc ∧
          outcome (perform json_dump op) w = Ok tt ∧
          file w' = Some doc ∧ trace w' = trace w ++ [Written doc]) ∨
  (∃ part e, json_dump (to_dict <$> books w') = Cut part e ∧
             outcome (perform json_dump op) w = Raise e ∧
             file w' = Some part ∧ trace w' = trace w ++ [Written part]) ∨
  (∃ m, outcome (perform json_dump op) w = Ok tt ∧
        trace w' = trace w ++ [Printed m] ∧
        books w' = books w ∧ file w' = file w).
Proof.
  unfold outcome, exec.
  destruct (perform_cases op w) as [[bs ->]|[m ->]].
  - unfold persisting, persisted. simpl.
    destruct (json_dump (to_dict <$> bs)) as [doc|part e] eqn:Hdump.
    + left. by exists doc.
    + right. left. by exists part, e.
  - right. right. by exists m.
Qed.

Lemma perform_mirrored op w :
  outcome (perform json_dump op) w = Ok tt →
  mirrored json_dump w → mirrored json_dump (exec (perform json_dump op) w).
Proof.
  unfold outcome, exec.
  destruct (perform_cases op w) as [[bs ->]|[m ->]]; [|done].
  unfold persisting, persisted, mirrored. simpl.
  by destruct (json_dump (to_dict <$> bs)).
Qed.

Lemma perform_all_mirrored_from ops w :
  outcome (perform_all json_dump ops) w = Ok tt →
  mirrored json_dump w →
  mirrored json_dump (exec (perform_all json_dump ops) w).
Proof.
  revert w. induction ops as [|op ops IH]; intros w Hok Hw; [done|].
  unfold outcome, exec in *. rewrite perform_all_cons in *.
  destruct (outcome (perform json_dump op) w) as [[]|e] eqn:Hop; [|done].
  by apply IH, perform_mirrored.
Qed.

(** X11. The backing file mirrors the catalog after every sequence of
    operations that returns: if the file held the whole document that
    [json.dump] writes for the books in memory (or did not exist, with
    no book in memory), it does so again after the operations.  A
    sequence returns when none of its writes raises. *)
Theorem perform_all_mirrored ops w :
  outcome (perform_all json_dump ops) w = Ok tt →
  mirrored json_dump w →
  mirrored json_dump (exec (perform_all json_dump ops) w).
Proof. apply perform_all_mirrored_from. Qed.

(** X12. Nothing is lost on a restart: after a sequence of operations
    that returns, on a library whose file mirrors it, a new [Library]
    built over the file, whatever it has in memory, gets the books that
    the operations left.  [json.load] is asked to read back the document
    that [json.dump] wrote whole for these books. *)
Theorem restart_restores ops w bs0 tr0 :
  let w' := exec (perform_all json_dump ops) w in
  (∀ doc, json_dump (to_dict <$> books w') = Whole doc →
          json_load doc = Ok (to_dict <$> books w')) →
  outcome (perform_all json_dump ops) w = Ok tt →
  mirrored json_dump w →
  Library_init json_load (mkWorld bs0 (file w') tr0) =
  (Ok tt, mkWorld (books w') (file w') tr0).
Proof.
  intros w' Hcodec Hok Hw.
  assert (mirrored json_dump w') as Hw'
    by by apply perform_all_mirrored_from.
  unfold mirrored in Hw'.
  destruct (file w') as [doc|] eqn:Hfile.
  - rewrite (Library_init_run json_load _ doc) by done. simpl.
    by rewrite (Hcodec doc Hw'), rmap_book_of_dict_to_dict.
  - unfold Library_init, load_books, mbind, M_bind, set_books,
      path_exists. simpl. by rewrite Hw'.
Qed.

End CatalogMore.

(** ** Ids, removals and statuses *)

Section IdsMore.
Context {text : Type}.
Variable json_dump : list pydict -> dump text.

Implicit Types (w : World text) (b : Book) (bs : list Book).
Implicit Types (op : operation) (ops : list operation).

Lemma perform_all_counted ops w :
  Forall keeps_books ops → counted (books w) →
  counted (books (exec (perform_all json_dump ops) w)).
Proof.
  apply (perform_all_keeps json_dump keeps_books (λ w, counted (books w))).
  apply perform_counted.
Qed.

(** X13. As long as nothing is removed, the ids of a catalog that
    started empty count up from 1 in the order of the sequence, so they
    are pairwise distinct: the id of a book is its position. *)
Theorem ids_count_up_without_removal ops :
  Forall keeps_books ops →
  let bs := books (exec (perform_all json_dump ops) empty_catalog) in
  ids bs = (λ n, PyInt (Z.of_nat n)) <$> seq 1 (length bs) ∧
  NoDup (ids bs).
Proof.
  intros Hops bs.
  assert (counted bs) as Hbs by by apply perform_all_counted.
  split; [done|]. rewrite Hbs.
  apply NoDup_fmap_2, NoDup_seq. intros m n Heq. injection Heq. lia.
Qed.

Lemma ids_from_position_ids bs bs' :
  ids bs = ids bs' → ids_from_position bs → ids_from_position bs'.
Proof.
  intros Hids Hbs i b' Hb'.
  assert (ids bs !! i = Some (id b')) as Hi.
  { rewrite Hids. unfold ids. by rewrite list_lookup_fmap, Hb'. }
  unfold ids in Hi. rewrite list_lookup_fmap in Hi.
  destruct (bs !! i) as [b|] eqn:Hb; [|done].
  injection Hi as Hi. rewrite <- Hi. by apply Hbs.
Qed.

Lemma perform_ids_from_position op w :
  ids_from_position (books w) →
  ids_from_position (books (exec (perform json_dump op) w)).
Proof.
  intros Hw. unfold exec.
  destruct op as [t a y|book_id|book_id new_status]; cbn [perform].
  - rewrite add_book_run. simpl. intros i b [Hb|[Hi Hb]]%lookup_app_Some.
    + by apply Hw.
    + destruct (i - length (books w))%nat eqn:Hdiff; [|done].
      injection Hb as <-. eexists. split; [done|]. lia.
  - destruct (remove_book_cases json_dump book_id w)
      as [[_ ->]|(pre & b & post & Hsplit & _ & _ & ->)]; [done|].
    simpl. intros i x [Hx|[Hi Hx]]%lookup_app_Some.
    + apply Hw. rewrite Hsplit. by apply lookup_app_l_Some.
    + destruct (Hw (S i) x) as (n & Hn & Hle).
      { rewrite Hsplit, lookup_app_r by lia.
        by replace (S i - length pre)%nat with (S (i - length pre)) by lia. }
      exists n. split; [done|]. lia.
  - apply ids_from_position_ids with (books w); [|done].
    symmetry. apply (change_status_ids json_dump).
Qed.

(** X14. Whatever operations were performed on a catalog that started
    empty, removals included, the id of the book at the position [i]
    (counted from 0) is an [int] at least [i + 1]: an id is never
    below the position of its book, and never below 1. *)
Theorem ids_at_least_position ops :
  ids_from_position
    (books (exec (perform_all json_dump ops) empty_catalog)).
Proof.
  apply (perform_all_keeps json_dump (λ _, True)
           (λ w, ids_from_position (books w))).
  - intros op w _. apply perform_ids_from_position.
  - by apply Forall_true.
  - by intros i b.
Qed.

Lemma same_but_status_all bs : Forall2 same_but_status bs bs.
Proof. induction bs; by repeat constructor. Qed.

(** X15. [change_status] never adds, removes or reorders a book, and
    never changes an id, a title, an author or a year, whether it
    succeeds or prints a message; and it returns normally, unless
    [json.dump] raises while the catalog is written. *)
Theorem change_status_keeps_records book_id new_status w :
  let w' := exec (change_status json_dump book_id new_status) w in
  Forall2 same_but_status (books w) (books w') ∧
  (outcome (change_status json_dump book_id new_status) w = Ok tt ∨
   ∃ part e,
     json_dump (to_dict <$> books w') = Cut part e ∧
     outcome (change_status json_dump book_id new_status) w = Raise e).
Proof.
  unfold outcome, exec.
  destruct (change_status_cases json_dump book_id new_status w)
    as [[_ ->]|(pre & b & post & Hsplit & _ & _ & ->)].
  - split; [apply same_but_status_all|by left].
  - destruct (valid_status new_status); simpl.
    + split.
      * rewrite Hsplit. apply Forall2_app; [apply same_but_status_all|].
        constructor; [done|apply same_but_status_all].
      * unfold persisting.
        destruct (json_dump _) as [doc|part e] eqn:Hdump; [by left|].
        right. by exists part, e.
    + split; [apply same_but_status_all|by left].
Qed.

(** X16. Changing a status twice is changing it once: a second
    [change_status] with the same id and status leaves the catalog and
    the file as the first one left them. *)
Theorem change_status_twice book_id new_status w :
  let once := exec (change_status json_dump book_id new_status) w in
  let twice := exec (change_status json_dump book_id new_status) once in
  books twice = books once ∧ file twice = file once.
Proof.
  unfold exec.
  destruct (change_status_cases json_dump book_id new_status w)
    as [[Habsent Hrun]|(pre & b & post & Hsplit & Hb & Hpre & Hrun)].
  - rewrite Hrun. simpl.
    by rewrite (change_status_absent json_dump book_id new_status
                  (only_printed (NotFound book_id) w)).
  - rewrite Hrun. destruct (valid_status new_status) eqn:Hvalid; simpl.
    + rewrite (change_status_at_first json_dump book_id new_status
                 pre (set_status b new_status) post) by done.
      by rewrite Hvalid.
    + rewrite (change_status_at_first json_dump book_id new_status
                 pre b post) by done.
      by rewrite Hvalid.
Qed.

(** X17. On a catalog whose ids are pairwise distinct, [remove_book]
    leaves no book with the given id, and the ids stay pairwise
    distinct. *)
Theorem remove_book_distinct_ids book_id w :
  NoDup (ids (books w)) →
  let w' := exec (remove_book json_dump book_id) w in
  Forall (λ b, id b ≠ book_id) (books w') ∧ NoDup (ids (books w')).
Proof.
  intros Hdistinct. unfold exec.
  destruct (remove_book_cases json_dump book_id w)
    as [[Habsent ->]|(pre & b & post & Hsplit & Hb & Hpre & ->)]; [done|].
  simpl. unfold ids in *. rewrite Hsplit, fmap_app, fmap_cons in Hdistinct.
  apply NoDup_app in Hdistinct as (Hpre' & Hcross & Hpost).
  apply NoDup_cons in Hpost as [Hfresh Hpost]. split.
  - apply Forall_app. split; [done|].
    apply Forall_forall. intros x Hx Hid. apply Hfresh.
    rewrite Hb, <- Hid. by apply list_elem_of_fmap_2.
  - rewrite fmap_app. apply NoDup_app. repeat split; [done| |done].
    intros x Hx Hx'. apply (Hcross x Hx). by right.
Qed.

(** X18. A removal of what was just added undoes the addition: when no
    book has the id that [add_book] is about to give, [add_book]
    followed by [remove_book] of that id leaves the sequence as it was
    before. *)
Theorem add_then_remove t a y w :
  let new_id := PyInt (Z.of_nat (length (books w)) + 1) in
  Forall (λ b, id b ≠ new_id) (books w) →
  books (exec (remove_book json_dump new_id)
           (exec (add_book json_dump t a y) w)) = books w.
Proof.
  intros new_id Hfresh. unfold exec. rewrite add_book_run. simpl.
  rewrite (remove_book_at_first json_dump new_id (books w)
             (mkBook new_id t a y (PyStr in_stock)) []) by done.
  simpl. by rewrite app_nil_r.
Qed.

End IdsMore.

(** ** The menu loop *)

Example int_basic_reads :
  int_basic (of_ascii "1965") = Some 1965 ∧
  int_basic (str_of_int (-40)) = Some (-40) ∧
  int_basic (of_ascii "abc") = None ∧
  int_basic (of_ascii "-") = None ∧
  int_basic [] = None.
Proof. by repeat split. Qed.

Section MenuFacts.
Context {text : Type}.
Variable json_dump : list pydict -> dump text.
Variable json_load : text -> result (list pydict).
Variable lower : pystr -> pystr.
Variable py_int : pystr -> option Z.

Implicit Types (s : Session text) (w : World text) (c : command).

Lemma keeps_ret {A} (a : A) : keeps_stdin (mret a : P text A).
Proof. by intros s. Qed.

Lemma keeps_say p : keeps_stdin (say p : P text unit).
Proof. by intros s. Qed.

Lemma keeps_say_lines lines : keeps_stdin (say_lines lines : P text unit).
Proof. by intros s. Qed.

Lemma keeps_call {A} (m : M text A) : keeps_stdin (call m).
Proof. intros s. unfold call. by destruct (m (world s)). Qed.

Lemma keeps_input p : keeps_stdin (input p : P text pystr).
Proof. intros s. unfold input. destruct (stdin s); simpl; lia. Qed.

Lemma reads_input p : reads_stdin (input p : P text pystr).
Proof.
  intros s a s'. unfold input.
  destruct (stdin s); intros [= <- <-]; simpl; lia.
Qed.

Lemma keeps_bind {A B} (m : P text A) (k : A → P text B) :
  keeps_stdin m → (∀ a, keeps_stdin (k a)) → keeps_stdin (m ≫= k).
Proof.
  intros Hm Hk s. unfold mbind, P_bind.
  specialize (Hm s). destruct (m s) as [[a|f] s']; simpl in *; [|done].
  specialize (Hk a s'). lia.
Qed.

Lemma reads_bind_l {A B} (m : P text A) (k : A → P text B) :
  reads_stdin m → (∀ a, keeps_stdin (k a)) → reads_stdin (m ≫= k).
Proof.
  intros Hm Hk s b s''. unfold mbind, P_bind.
  destruct (m s) as [[a|f] s'] eqn:Hrun; [|done].
  intros Hk'. specialize (Hm s a s' Hrun). specialize (Hk a s').
  rewrite Hk' in Hk. simpl in Hk. lia.
Qed.

Lemma reads_bind_r {A B} (m : P text A) (k : A → P text B) :
  keeps_stdin m → (∀ a, reads_stdin (k a)) → reads_stdin (m ≫= k).
Proof.
  intros Hm Hk s b s''. unfold mbind, P_bind.
  specialize (Hm s). destruct (m s) as [[a|f] s'] eqn:Hrun; [|done].
  intros Hk'. specialize (Hk a s' b s'' Hk'). simpl in Hm. lia.
Qed.

Lemma keeps_input_int p :
  keeps_stdin (input_int py_int p : P text Z).
Proof.
  apply keeps_bind; [apply keeps_input|]. intros answer.
  destruct (py_int answer); [apply keeps_ret|by intros s].
Qed.

Lemma keeps_display_books : keeps_stdin (display_books : P text unit).
Proof.
  apply keeps_bind; [apply keeps_call|].
  intros [|b bs]; [apply keeps_say|apply keeps_say_lines].
Qed.

(** A turn of the loop that ends normally has read a line. *)
Lemma reads_turn : reads_stdin (turn json_dump lower py_int).
Proof.
  unfold turn.
  do 7 (apply reads_bind_r; [apply keeps_say|intros _]).
  apply reads_bind_l; [apply reads_input|]. intros choice.
  repeat case_bool_decide;
    repeat first
      [ apply keeps_ret | apply keeps_say | apply keeps_say_lines
      | apply keeps_call | apply keeps_input | apply keeps_input_int
      | apply keeps_display_books
      | apply keeps_bind; [|intros ?]
      | match goal with |- keeps_stdin (match ?x with _ => _ end) =>
          destruct x end ].
Qed.

Lemma loop_ends fuel s :
  (length (stdin s) < fuel)%nat →
  is_Some (loop json_dump lower py_int fuel s).
Proof.
  revert s. induction fuel as [|fuel IH]; intros s Hfuel; [lia|].
  simpl. destruct (turn json_dump lower py_int s) as [[[|]|f] s'] eqn:Hturn;
    [|done..].
  apply IH. apply reads_turn in Hturn. lia.
Qed.

(** X19. [main] ends on every input: the loop never runs beyond the
    lines that the keyboard has.  It ends by the choice "6", or by an
    exception. *)
Theorem main_ends s :
  ∃ e s', main json_dump json_load lower py_int s = Some (e, s').
Proof.
  unfold main.
  destruct (call (Library_init json_load) s) as [[[]|f] s']; [|by eauto].
  destruct (loop_ends (S (length (stdin s'))) s') as [[e s''] Hloop]; [lia|].
  eauto.
Qed.




















End MenuFacts.

(** ** The further properties at the samples *)

Lemma shelf_text_fields : Forall text_fields [dune; war_and_peace; emma].
Proof. repeat constructor; by eexists. Qed.

Lemma lower_basic_digits s :
  Forall digit_or_minus s → lower_basic s = s.
Proof.
  induction 1 as [|c s Hc _ IH]; simpl; [done|]. rewrite IH. f_equal.
  unfold lower_code_point.
  destruct Hc as [->|[Hlow Hhigh]]; [done|].
  repeat case_match; try done;
    repeat match goal with
    | H : _ && _ = true |- _ => apply andb_true_iff in H as [? ?]
    | H : (_ <=? _)%N = true |- _ => apply N.leb_le in H
    end; lia.
Qed.


Lemma search_books_finds_shelf :
  Forall text_fields (books shelf) ∧
  search_books lower_basic (PyStr (of_ascii "E")) shelf =
  (Ok (List.filter (code_matches lower_basic (of_ascii "E")) (books shelf)),
   shelf) ∧
  ∀ b, b ∈ List.filter (code_matches lower_basic (of_ascii "E"))
             (books shelf) ↔
       b ∈ books shelf ∧
       (occurs_in (lower_basic (of_ascii "E"))
          (lower_basic (py_str (title b))) ∨
        occurs_in (lower_basic (of_ascii "E"))
          (lower_basic (py_str (author b))) ∨
        occurs_in (lower_basic (of_ascii "E")) (py_str (year b))).
Proof.
  split; [apply shelf_text_fields|].
  apply search_books_finds, shelf_text_fields.
Defined.

Lemma search_books_empty_query_all_shelf :
  lower_basic [] = [] ∧ Forall text_fields (books shelf) ∧
  search_books lower_basic (PyStr []) shelf = (Ok (books shelf), shelf).
Proof.
  split; [reflexivity|]. split; [apply shelf_text_fields|].
  apply search_books_empty_query_all; [reflexivity|apply shelf_text_fields].
Defined.

Lemma search_books_raises_iff_numbered :
  Exists (unsearchable lower_basic (PyStr (of_ascii "dune")))
    (books numbered) ∧
  search_books lower_basic (PyStr (of_ascii "dune")) numbered =
  (Raise AttributeError, numbered).
Proof.
  assert (Exists (unsearchable lower_basic (PyStr (of_ascii "dune")))
            (books numbered)) as Hbad.
  { right. left. right. left. by eexists. }
  split; [done|].
  by apply (search_books_raises_iff lower_basic _ numbered).
Defined.

Lemma search_books_int_years_novels :
  (∀ s, Forall digit_or_minus s → lower_basic s = s) ∧
  Forall text_fields (books novels) ∧
  Forall (λ b, is_int (year b)) (books novels) ∧
  search_books lower_basic (PyStr (of_ascii "18")) novels =
  (Ok (List.filter (spec_matches lower_basic (of_ascii "18"))
         (books novels)), novels).
Proof.
  assert (Forall text_fields (books novels)) as Hfields
    by (repeat constructor; by eexists).
  assert (Forall (λ b, is_int (year b)) (books novels)) as Hyears
    by (repeat constructor; by eexists).
  split; [apply lower_basic_digits|]. do 2 (split; [done|]).
  by apply search_books_int_years; [apply lower_basic_digits|..].
Defined.

Lemma Library_init_key_error_torn :
  let data := [to_dict dune; delete "year" (to_dict emma)] in
  file torn = Some (text_of data) ∧
  text_load (text_of data) = Ok data ∧
  Exists (λ d, ¬ has_book_fields d) data ∧
  ∃ key d,
    d ∈ data ∧ key ∈ book_keys ∧ d !! key = None ∧
    Library_init text_load torn =
    (Raise (KeyError key), mkWorld [] (file torn) (trace torn)).
Proof.
  intros data.
  assert (text_load (text_of data) = Ok data) as Hload by compute_done.
  assert (Exists (λ d, ¬ has_book_fields d) data) as Hmissing.
  { right. left. intros (_ & _ & _ & [y Hy] & _). discriminate Hy. }
  split; [reflexivity|]. do 2 (split; [done|]).
  by apply (Library_init_key_error text_load torn (text_of data) data).
Defined.

Lemma Library_init_reads_five_fields_annotated :
  let w := mkWorld [] (Some (text_of [to_dict dune])) [] in
  let w' := mkWorld [emma] (Some (text_of [annotated])) [] in
  text_load (text_of [to_dict dune]) = Ok [to_dict dune] ∧
  text_load (text_of [annotated]) = Ok [annotated] ∧
  Forall2 same_book_fields [to_dict dune] [annotated] ∧
  outcome (Library_init text_load) w = outcome (Library_init text_load) w' ∧
  books (exec (Library_init text_load) w) =
  books (exec (Library_init text_load) w').
Proof.
  intros w w'.
  assert (text_load (text_of [to_dict dune]) = Ok [to_dict dune]) as Hload
    by compute_done.
  assert (text_load (text_of [annotated]) = Ok [annotated]) as Hload'
    by compute_done.
  assert (Forall2 same_book_fields [to_dict dune] [annotated]) as Hsame.
  { repeat constructor. intros key Hkey%elem_of_book_keys.
    unfold annotated. rewrite lookup_insert_ne; [done|].
    intros <-. destruct Hkey as [?|[?|[?|[?|?]]]]; discriminate. }
  do 3 (split; [done|]).
  by apply (Library_init_reads_five_fields text_load w w'
              (text_of [to_dict dune]) (text_of [annotated])
              [to_dict dune] [annotated]).
Defined.

Lemma to_dict_of_loaded_dune :
  has_book_fields (to_dict dune) ∧
  (∀ key, is_Some (to_dict dune !! key) → key ∈ book_keys) ∧
  ∃ b, book_of_dict (to_dict dune) = Ok b ∧ to_dict b = to_dict dune ∧
       ∀ key, is_Some (to_dict b !! key) ↔ key ∈ book_keys.
Proof.
  assert (has_book_fields (to_dict dune)) as Hfields
    by (repeat split; by eexists).
  assert (∀ key, is_Some (to_dict dune !! key) → key ∈ book_keys) as Hkeys.
  { intros key. rewrite to_dict_lookup, elem_of_book_keys.
    repeat (case_decide; [by eauto 9|]). by intros []. }
  do 2 (split; [done|]). by apply to_dict_of_loaded.
Defined.

Lemma dumped_whole {text} (d : dump text) doc :
  d = Whole doc → doc = dumped d.
Proof. by intros ->. Qed.

Lemma perform_all_mirrored_typed :
  let w := mkWorld (books shelf) (file shelf_on_disk) [] in
  outcome (perform_all text_dump (typed ≫= asked)) w = Ok tt ∧
  mirrored text_dump w ∧
  mirrored text_dump (exec (perform_all text_dump (typed ≫= asked)) w).
Proof.
  intros w.
  assert (outcome (perform_all text_dump (typed ≫= asked)) w = Ok tt)
    as Hok by compute_done.
  assert (mirrored text_dump w) as Hw by compute_done.
  do 2 (split; [done|]). by apply perform_all_mirrored.
Defined.

Lemma restart_restores_typed :
  let w := mkWorld (books shelf) (file shelf_on_disk) [] in
  let w' := exec (perform_all text_dump (typed ≫= asked)) w in
  (∀ doc, text_dump (to_dict <$> books w') = Whole doc →
          text_load doc = Ok (to_dict <$> books w')) ∧
  outcome (perform_all text_dump (typed ≫= asked)) w = Ok tt ∧
  mirrored text_dump w ∧
  Library_init text_load (mkWorld [emma] (file w') []) =
  (Ok tt, mkWorld (books w') (file w') []).
Proof.
  intros w w'.
  assert (∀ doc, text_dump (to_dict <$> books w') = Whole doc →
                 text_load doc = Ok (to_dict <$> books w')) as Hcodec.
  { intros doc ->%dumped_whole. compute_done. }
  assert (outcome (perform_all text_dump (typed ≫= asked)) w = Ok tt)
    as Hok by compute_done.
  assert (mirrored text_dump w) as Hw by compute_done.
  do 3 (split; [done|]).
  by apply (restart_restores text_dump text_load (typed ≫= asked) w).
Defined.

Lemma ids_count_up_without_removal_adds :
  let ops := [Add (title dune) (author dune) (year dune);
              SetStatus (PyInt 1) (PyStr lent_out);
              Add (title emma) (author emma) (year emma)] in
  Forall keeps_books ops ∧
  let bs := books (exec (perform_all text_dump ops) empty_catalog) in
  ids bs = (λ n, PyInt (Z.of_nat n)) <$> seq 1 (length bs) ∧
  NoDup (ids bs).
Proof.
  intros ops.
  assert (Forall keeps_books ops) as Hops by by repeat constructor.
  split; [done|]. by apply ids_count_up_without_removal.
Defined.

Lemma remove_book_distinct_ids_two_books :
  NoDup (ids (books two_books)) ∧
  let w' := exec (remove_book text_dump (PyInt 1)) two_books in
  Forall (λ b, id b ≠ PyInt 1) (books w') ∧ NoDup (ids (books w')).
Proof.
  assert (NoDup (ids (books two_books))) as Hdistinct.
  { apply NoDup_cons. split; [|apply NoDup_singleton].
    by intros [=]%list_elem_of_singleton. }
  split; [done|]. by apply remove_book_distinct_ids.
Defined.

Lemma add_then_remove_shelf :
  Forall (λ b, id b ≠ PyInt (Z.of_nat (length (books shelf)) + 1))
    (books shelf) ∧
  books (exec (remove_book text_dump
                 (PyInt (Z.of_nat (length (books shelf)) + 1)))
           (exec (add_book text_dump (title emma) (author emma)
                    (year emma)) shelf)) = books shelf.
Proof.
  assert (Forall (λ b, id b ≠ PyInt (Z.of_nat (length (books shelf)) + 1))
            (books shelf)) as Hfresh by by repeat constructor.
  split; [done|]. by apply (add_then_remove text_dump).
Defined.







